(** * FarmSight backend: stress classifier, trend/forecast estimator and
    alert orchestrator

    A shallow embedding of [services/aiStressDetector.js] (class
    [AIStressDetector]), [services/smsService.js] (phone formatting) and
    [services/alertService.js] (class [AlertService]), with the properties
    the specification states about them.

    Numbers.  JavaScript numbers are IEEE doubles.  Finite values are
    modelled by exact rationals ([Q]); the only operation of the modelled
    code that can leave the finite values is the division in
    [calculateLinearRegression] and in the average, so a division returns a
    [JsNum.t], which adds [NaN] and the two infinities.  Rounding is not
    modelled: a comparison of a stored double against a literal such as
    [0.2] agrees with the comparison of the rationals, an arithmetic result
    may differ from the rational one in the last bit.  The slope of the
    regression is such a result: for the values 0.30, 0.25 the quotient is
    -1/20 here and a little below -0.05 as a double, so the general
    properties of the trend below are stated of the slope the function
    returns and of the side of a threshold it is on, not of its exact
    value.

    Strings.  Stress levels are JavaScript strings, and the analysis that
    reaches the orchestrator may come from the language-model endpoint with a
    level outside the five known ones, so levels stay strings here.

    Time.  A date is a number of milliseconds, a forecast date a day number;
    the range limit of [Date] is not modelled.  Every reading of the clock,
    of [Math.random] and of an outside service is an input of the call
    ([Env]).

    Keys.  The collections are looked up by the value of an id, so they
    are maps from the id's string.  [stressCache] is a JavaScript [Map]: it
    is written under [farm._id], the ObjectId object of the loaded
    document, and read under the [farmId] argument, the string of the
    route.  A [Map] holds an object key by identity, and no string is that
    key.  The model keeps the two apart: [farm_id] is a field of the
    document, independent of the key the document is stored under, and for
    a document as the routes load it that field is [objectKey] of the id,
    which differs from every id (see [RouteExamples]). *)

(** Beside the classifier, the forecast and the orchestrator, the file
    embeds the handling of the language model's answers
    ([generateMockLLMResponse], [parseTextResponse], [analyzeWithHuaweiLLM],
    [interpretAIResults]), the bulk alerts of [SMSService], [analyzeAllFarms]
    and [getAlertStatistics] of [AlertService], and the routes and mocked
    services around them ([generateNDVIForecast] of [routes/satellite.js],
    the stress level of [routes/farms.js], [getTimeSeriesNDVI],
    [getVideosByCategory]). *)

From stdpp Require Import gmap strings list.
From Stdlib Require Import QArith Qminmax Lqa ZArith Lia.

Local Open Scope Z_scope.
Local Open Scope string_scope.
Local Open Scope list_scope.

(** ** JavaScript numbers around a division *)

Module JsNum.

Inductive t : Type :=
| Fin (q : Q)
| PosInf
| NegInf
| NaN.

(** [a / b] on finite operands. *)
Definition div (a b : Q) : t :=
  if Qeq_bool b 0 then
    if Qeq_bool a 0 then NaN
    else if Qle_bool 0 a then PosInf else NegInf
  else Fin (a / b).

(** [x < y] as the language evaluates it: false when an operand is NaN. *)
Definition ltb (x y : t) : bool :=
  match x, y with
  | NaN, _ | _, NaN => false
  | Fin a, Fin b => negb (Qle_bool b a)
  | NegInf, NegInf => false
  | NegInf, _ => true
  | _, PosInf => match x with PosInf => false | _ => true end
  | PosInf, _ => false
  | Fin _, NegInf => false
  end.

Definition add (x y : t) : t :=
  match x, y with
  | NaN, _ | _, NaN => NaN
  | Fin a, Fin b => Fin (a + b)
  | PosInf, NegInf | NegInf, PosInf => NaN
  | PosInf, _ | _, PosInf => PosInf
  | NegInf, _ | _, NegInf => NegInf
  end.

(** [x * k] for a finite factor [k]. *)
Definition scale (x : t) (k : Q) : t :=
  match x with
  | NaN => NaN
  | Fin a => Fin (a * k)
  | PosInf =>
      if Qeq_bool k 0 then NaN else if Qle_bool 0 k then PosInf else NegInf
  | NegInf =>
      if Qeq_bool k 0 then NaN else if Qle_bool 0 k then NegInf else PosInf
  end.

(** [Math.max(lo, Math.min(hi, x))] for finite bounds. *)
Definition clamp (lo hi : Q) (x : t) : t :=
  match x with
  | NaN => NaN
  | Fin a => Fin (Qmax lo (Qmin hi a))
  | PosInf => Fin (Qmax lo hi)
  | NegInf => Fin lo
  end.

End JsNum.

(** [x < y] on finite numbers. *)
Definition Qltb (x y : Q) : bool := negb (Qle_bool y x).

(** [v || 0] on a finite number: zero is the only falsy finite value. *)
Definition orZero (v : option Q) : Q :=
  match v with
  | Some q => if Qeq_bool q 0 then 0%Q else q
  | None => 0%Q
  end.

(** Keys of the persistence layer and of the in-memory cache. *)
Abbreviation Key := string.

(** The key that the ObjectId object of a loaded document is in a
    JavaScript [Map], for the document with the id [hex].  A route passes
    [hex] itself. *)
Definition objectKey (hex : string) : Key := "ObjectId(" +:+ hex +:+ ")".

(** ** The data the classifier reads *)

(** A stored NDVI document ([models/NDVIData.js]), with the [forecast] flag
    [storeAnalysisResults] writes. *)
Record NDVISample := mkSample {
  farm : Key;
  date : Z;
  ndvi : Q;
  cloudCover : Q;
  forecastFlag : bool
}.

Record NdviAnalysis := mkNdviAnalysis {
  current : Q;
  average : JsNum.t;
  trend : JsNum.t
}.

(** The analysis object of [analyzeWithRules], [analyzeWithHuaweiLLM] and
    [getDefaultAnalysis]. *)
Record Analysis := mkAnalysis {
  stressLevel : string;
  confidence : Q;
  recommendations : list string;
  ndviAnalysis : option NdviAnalysis;
  aiModel : string;
  riskFactors : option (list string);
  analysisText : option string
}.

Record ForecastPoint := mkForecastPoint {
  fp_date : Z;
  predictedNDVI : JsNum.t;
  fp_stressLevel : string;
  fp_confidence : Q
}.

Record Forecast := mkForecast {
  forecast : list ForecastPoint;
  fc_confidence : Q;
  method : string;
  fc_trend : option JsNum.t;
  currentNDVI : option Q
}.

(** ** [AIStressDetector] *)

Module AIStressDetector.

(** [arr.slice(-k)]: the last [k] elements, all of them when fewer. *)
Definition sliceLast {A} (k : nat) (arr : list A) : list A :=
  drop (length arr - k)%nat arr.

(** [arr.map((d, i) => f(d, i))]. *)
Fixpoint mapi_from {A B} (f : A -> nat -> B) (i : nat) (arr : list A) : list B :=
  match arr with
  | [] => []
  | d :: rest => f d i :: mapi_from f (S i) rest
  end.

Definition ofNat (n : nat) : Q := inject_Z (Z.of_nat n).

(** [calculateLinearRegression(points)], points as pairs [(x, y)]. *)
Definition regressionDenominator (points : list (Q * Q)) : Q :=
  let n := ofNat (length points) in
  let sumX := fold_left (fun sum p => (sum + fst p)%Q) points 0%Q in
  let sumX2 := fold_left (fun sum p => (sum + fst p * fst p)%Q) points 0%Q in
  (n * sumX2 - sumX * sumX)%Q.

Definition regressionNumerator (points : list (Q * Q)) : Q :=
  let n := ofNat (length points) in
  let sumX := fold_left (fun sum p => (sum + fst p)%Q) points 0%Q in
  let sumY := fold_left (fun sum p => (sum + snd p)%Q) points 0%Q in
  let sumXY := fold_left (fun sum p => (sum + fst p * snd p)%Q) points 0%Q in
  (n * sumXY - sumX * sumY)%Q.

Definition calculateLinearRegression (points : list (Q * Q)) : JsNum.t :=
  JsNum.div (regressionNumerator points) (regressionDenominator points).

(** The points [calculateNDVITrend] hands to the regression. *)
Definition trendPoints (ndviData : list NDVISample) : list (Q * Q) :=
  mapi_from (fun d i => (ofNat i, ndvi d)) 0 (sliceLast 5 ndviData).

Definition calculateNDVITrend (ndviData : list NDVISample) : JsNum.t :=
  if (length ndviData <? 2)%nat then JsNum.Fin 0%Q
  else
    let recent := sliceLast 5 ndviData in
    if (length recent <? 2)%nat then JsNum.Fin 0%Q
    else calculateLinearRegression (mapi_from (fun d i => (ofNat i, ndvi d)) 0 recent).

Definition levels : list string :=
  ["healthy"; "low"; "moderate"; "high"; "severe"].

(** [arr.indexOf(x)], [-1] when absent. *)
Fixpoint indexOf_from (x : string) (i : Z) (arr : list string) : Z :=
  match arr with
  | [] => -1
  | y :: rest => if String.eqb y x then i else indexOf_from x (i + 1) rest
  end.

Definition indexOf (arr : list string) (x : string) : Z := indexOf_from x 0 arr.

Definition upgradeStressLevel (currentLevel : string) : string :=
  let currentIndex := indexOf levels currentLevel in
  nth (Z.to_nat (Z.min (currentIndex + 1) (Z.of_nat (length levels) - 1)))
      levels "undefined".

(** The state of the three local variables of [analyzeWithRules]. *)
Record RuleState := mkRuleState {
  rs_stressLevel : string;
  rs_confidence : Q;
  rs_recommendations : list string
}.

(** The block commented "NDVI-based stress detection". *)
Definition ndviRule (latestNDVI : Q) : RuleState :=
  let init := mkRuleState "healthy" (8 # 10) [] in
  if Qltb latestNDVI (2 # 10) then
    mkRuleState "severe" (9 # 10)
      (rs_recommendations init ++
         ["Immediate irrigation required"; "Check for pest infestation"])
  else if Qltb latestNDVI (3 # 10) then
    mkRuleState "high" (8 # 10)
      (rs_recommendations init ++
         ["Increase irrigation frequency"; "Apply balanced fertilizer"])
  else if Qltb latestNDVI (4 # 10) then
    mkRuleState "moderate" (7 # 10)
      (rs_recommendations init ++
         ["Monitor closely"; "Consider light irrigation"])
  else init.

(** The block commented "Trend-based adjustment". *)
Definition trendAdjust (ndviTrend : JsNum.t) (s : RuleState) : RuleState :=
  if JsNum.ltb ndviTrend (JsNum.Fin (- (5 # 100))) then
    mkRuleState (upgradeStressLevel (rs_stressLevel s)) (rs_confidence s)
      (rs_recommendations s ++ ["Declining health trend detected"])
  else s.

(** [ndviData[ndviData.length - 1]?.ndvi || 0]. *)
Definition latestNDVI (ndviData : list NDVISample) : Q :=
  orZero (ndvi <$> last ndviData).

Definition averageNDVI (ndviData : list NDVISample) : JsNum.t :=
  JsNum.div (fold_left (fun sum d => (sum + ndvi d)%Q) ndviData 0%Q)
            (ofNat (length ndviData)).

Definition analyzeWithRules (ndviData : list NDVISample) : Analysis :=
  let latest := latestNDVI ndviData in
  let avgNDVI := averageNDVI ndviData in
  let ndviTrend := calculateNDVITrend ndviData in
  let s := trendAdjust ndviTrend (ndviRule latest) in
  mkAnalysis (rs_stressLevel s) (rs_confidence s) (rs_recommendations s)
    (Some (mkNdviAnalysis latest avgNDVI ndviTrend))
    "rule-based-fallback" None None.

(** The stress level before the trend adjustment. *)
Definition baseStressLevel (ndviData : list NDVISample) : string :=
  rs_stressLevel (ndviRule (latestNDVI ndviData)).

Definition getDefaultAnalysis : Analysis :=
  mkAnalysis "unknown" 0%Q ["Unable to analyze - check data quality"]
    None "error-fallback" None None.

(** [detectCropStress].  [llm] is what [analyzeWithHuaweiLLM] returned when
    an API key is configured and the endpoint answered; with no key, or a
    [null] answer, the rules decide.  [analyzeWithRules] throws nothing,
    so the [catch] branch with [getDefaultAnalysis] is never taken. *)
Definition detectCropStress (llm : option Analysis)
    (ndviData : list NDVISample) : Analysis :=
  match llm with
  | Some aiResult => aiResult
  | None => analyzeWithRules ndviData
  end.

(** The stress level of one forecast day. *)
Definition forecastStressLevel (finalNDVI : JsNum.t) : string :=
  if JsNum.ltb finalNDVI (JsNum.Fin (2 # 10)) then "severe"
  else if JsNum.ltb finalNDVI (JsNum.Fin (3 # 10)) then "high"
  else if JsNum.ltb finalNDVI (JsNum.Fin (4 # 10)) then "moderate"
  else if JsNum.ltb finalNDVI (JsNum.Fin (5 # 10)) then "low"
  else "healthy".

(** [Math.max(0.5, 0.9 - (i / days) * 0.4)]; inside the loop
    [1 <= i <= days], so [days] is not zero. *)
Definition dayConfidence (i days : Z) : Q :=
  Qmax (5 # 10) ((9 # 10) - (inject_Z i / inject_Z days) * (4 # 10)).

(** The body of the forecast loop for day [i].  [today] is the day number
    of [new Date()], [random i] the value [Math.random()] returns in
    iteration [i]. *)
Definition forecastDay (today : Z) (random : Z -> Q) (ndviTrend : JsNum.t)
    (lastNDVI : Q) (days i : Z) : ForecastPoint :=
  let futureDate := today + i in
  let predicted := JsNum.add (JsNum.Fin lastNDVI) (JsNum.scale ndviTrend (inject_Z i)) in
  let randomVariation := ((random i - (5 # 10)) * (5 # 100))%Q in
  let finalNDVI := JsNum.clamp 0 1 (JsNum.add predicted (JsNum.Fin randomVariation)) in
  mkForecastPoint futureDate finalNDVI (forecastStressLevel finalNDVI)
    (dayConfidence i days).

(** [for (let i = ...; i <= days; i++) forecast.push(...)], at most [fuel]
    iterations. *)
Fixpoint forecastLoop (fuel : nat) (mk : Z -> ForecastPoint) (days i : Z)
    (acc : list ForecastPoint) : list ForecastPoint :=
  match fuel with
  | O => acc
  | S fuel' =>
      if (i <=? days)%Z then forecastLoop fuel' mk days (i + 1) (acc ++ [mk i])
      else acc
  end.

(** [generateStressForecast(ndviData, days)]; the loop runs [days] times
    when [days] is positive and not at all otherwise, so [Z.to_nat days]
    iterations are all it asks for. *)
Definition generateStressForecast (today : Z) (random : Z -> Q)
    (ndviData : list NDVISample) (days : Z) : Forecast :=
  if (length ndviData <? 3)%nat then
    mkForecast [] 0 "insufficient_data" None None
  else
    let ndviTrend := calculateNDVITrend ndviData in
    match last ndviData with
    | None => mkForecast [] 0 "error" None None
    | Some d =>
        let lastNDVI := ndvi d in
        let points :=
          forecastLoop (Z.to_nat days)
            (forecastDay today random ndviTrend lastNDVI days) days 1 [] in
        mkForecast points 1 "linear_regression" (Some ndviTrend) (Some lastNDVI)
    end.

End AIStressDetector.

(** ** [SMSService]: phone numbers *)

Module SMSService.

Definition isDigit (c : Ascii.ascii) : bool :=
  let n := Ascii.nat_of_ascii c in ((48 <=? n)%nat && (n <=? 57)%nat)%bool.

(** [s.replace(/\D/g, '')] *)
Fixpoint stripNonDigits (s : string) : string :=
  match s with
  | EmptyString => EmptyString
  | String c rest =>
      if isDigit c then String c (stripNonDigits rest) else stripNonDigits rest
  end.

Definition validatePhoneNumber (phoneNumber : string) : option string :=
  let cleanNumber := stripNonDigits phoneNumber in
  if ((10 <=? String.length cleanNumber)%nat
      && (String.length cleanNumber <=? 15)%nat)%bool
  then Some cleanNumber else None.

Definition startsWith (prefix s : string) : bool := String.prefix prefix s.

Definition formatPhoneNumber (phoneNumber : string) : option string :=
  let countryCode := "+62" in
  match validatePhoneNumber phoneNumber with
  | None => None
  | Some cleanNumber =>
      if startsWith "+" cleanNumber then Some cleanNumber
      else if startsWith "0" cleanNumber then
        Some (countryCode +:+ String.substring 1 (String.length cleanNumber - 1) cleanNumber)
      else Some (countryCode +:+ cleanNumber)
  end.

End SMSService.

(** ** Persistence documents and the orchestrator's state *)

Record LastNDVIAnalysis := mkLastNDVIAnalysis {
  la_stressLevel : string;
  la_confidence : Q;
  la_ndviValue : option Q;
  la_analyzedAt : Z
}.

(** A Farm document ([models/Farm.js]); [farm_id] is its [_id]. *)
Record Farm := mkFarm {
  farm_id : Key;
  farm_name : string;
  owner : Key;
  cropType : string;
  area : Q;
  farm_isActive : bool;
  lastNDVIAnalysis : option LastNDVIAnalysis
}.

(** A User document, with the fields the orchestrator reads. *)
Record User := mkUser {
  user_id : Key;
  fullName : string;
  phoneNumber : option string;
  user_isActive : bool
}.

(** The text of an alert, kept in parts: the two numbers are printed by
    [toFixed] in the source. *)
Record AlertMessage := mkAlertMessage {
  am_prefix : string;
  am_farmerName : string;
  am_farmName : string;
  am_stressLevel : string;
  am_ndviLine : option (Q * Q);
  am_recommendations : list string
}.

(** An Alert document ([models/Alert.js]). *)
Record AlertDoc := mkAlertDoc {
  al_farmId : Key;
  al_userId : Key;
  al_stressLevel : string;
  al_confidence : Q;
  al_ndviValue : Q;
  al_recommendations : list string;
  al_riskFactors : list string;
  al_aiAnalysis : option string;
  al_alertType : string;
  al_status : string;
  al_sentAt : option Z;
  al_phoneNumber : option string;
  al_message : AlertMessage;
  al_urgency : string;
  al_acknowledged : bool
}.

(** An entry of [stressCache]. *)
Record CacheEntry := mkCacheEntry {
  timestamp : Z;
  ce_stressLevel : string;
  ce_messageId : option string
}.

(** A request handed to the SMS gateway by [createCustomAlert]. *)
Record Notification := mkNotification {
  nt_to : string;
  nt_message : AlertMessage;
  nt_urgency : string
}.

(** The object [sendAlert] returns. *)
Record SendResult := mkSendResult {
  sr_success : bool;
  sr_messageId : option string;
  sr_error : option string
}.

(** The collections, the in-memory cache of one [AlertService] and the
    requests sent to the gateway so far. *)
Record State := mkState {
  db_farms : gmap Key Farm;
  db_users : gmap Key User;
  db_ndvi : list NDVISample;
  db_alerts : list AlertDoc;
  stressCache : gmap Key CacheEntry;
  outbox : list Notification
}.

(** What one call reads from outside: the clock at the three places the
    source reads it, the random source of the forecast, the answer of the
    language-model endpoint and the answer of the SMS gateway. *)
Record Env := mkEnv {
  today : Z;
  nowStore : Z;
  nowGuard : Z;
  nowSend : Z;
  random : Z -> Q;
  llm : option Analysis;
  smsAccepted : bool;
  smsSid : option string
}.

(** The object [analyzeFarmAndAlert] returns. *)
Inductive Result :=
| Failed (error : string)
| AlertedResult (analysis : Analysis) (fc : Forecast) (alertSent : bool)
    (alertId : option string)
| SuppressedResult (analysis : Analysis) (fc : Forecast) (reason : option string).

(** ** [AlertService] *)

Module AlertService.

(** [24 * 60 * 60 * 1000] *)
Definition alertCooldown : Z := 24 * 60 * 60 * 1000.

Definition msPerDay : Z := 86400000.

(** [NDVIData.find({ farm: farmId }).sort({ date: -1 }).limit(30)];
    documents of equal date keep their stored order. *)
Fixpoint insertByDateDesc (d : NDVISample) (sorted : list NDVISample) : list NDVISample :=
  match sorted with
  | [] => [d]
  | e :: rest =>
      if (date e <? date d)%Z then d :: e :: rest
      else e :: insertByDateDesc d rest
  end.

Definition sortByDateDesc (docs : list NDVISample) : list NDVISample :=
  foldr insertByDateDesc [] docs.

Definition findNDVIData (store : list NDVISample) (farmId : Key) : list NDVISample :=
  take 30 (sortByDateDesc (filter (fun d => farm d = farmId) store)).

Definition getUrgencyLevel (level : string) : string :=
  if String.eqb level "severe" then "urgent"
  else if String.eqb level "high" then "high"
  else if String.eqb level "moderate" then "normal"
  else if String.eqb level "low" then "low"
  else "normal".

(** The prefixes without their pictographs. *)
Definition getUrgencyPrefix (level : string) : string :=
  if String.eqb level "severe" then "URGENT"
  else if String.eqb level "high" then "IMPORTANT"
  else "INFO".

Definition generateAlertMessage (farmerName farmName : string)
    (analysis : Analysis) : AlertMessage :=
  mkAlertMessage (getUrgencyPrefix (stressLevel analysis)) farmerName farmName
    (stressLevel analysis)
    ((fun a => (current a, (confidence analysis * 100)%Q)) <$> ndviAnalysis analysis)
    (recommendations analysis).

(** [shouldSendAlert(farmId, analysis)], [now] being [Date.now()]. *)
Definition shouldSendAlert (cache : gmap Key CacheEntry) (now : Z)
    (farmId : Key) (analysis : Analysis) : bool :=
  if (String.eqb (stressLevel analysis) "healthy"
      || String.eqb (stressLevel analysis) "low")%bool then false
  else
    let lastAlert := cache !! farmId in
    if match lastAlert with
       | Some la => (now - timestamp la <? alertCooldown)%Z
       | None => false
       end
    then false
    else if Qltb (confidence analysis) (7 # 10) then false
    else true.

(** [sendAlert(farmer, farm, analysis)].  A missing [phoneNumber] makes
    [validatePhoneNumber] throw, which the [catch] turns into a failure
    result; a failing gateway request is a failure result of
    [createCustomAlert]. *)
Definition sendAlert (env : Env) (st : State) (farmer : User) (fm : Farm)
    (analysis : Analysis) : SendResult * State :=
  match phoneNumber farmer with
  | None => (mkSendResult false None (Some "TypeError"), st)
  | Some raw =>
      match SMSService.formatPhoneNumber raw with
      | None => (mkSendResult false None (Some "Invalid phone number"), st)
      | Some phone =>
          let message := generateAlertMessage (fullName farmer) (farm_name fm) analysis in
          let request :=
            mkNotification ("+" +:+ phone) message (getUrgencyLevel (stressLevel analysis)) in
          let sent := outbox st ++ [request] in
          if smsAccepted env then
            let entry := mkCacheEntry (nowSend env) (stressLevel analysis) (smsSid env) in
            (mkSendResult true (smsSid env) None,
             mkState (db_farms st) (db_users st) (db_ndvi st) (db_alerts st)
               (<[farm_id fm := entry]> (stressCache st)) sent)
          else
            (mkSendResult false None (Some "request failed"),
             mkState (db_farms st) (db_users st) (db_ndvi st) (db_alerts st)
               (stressCache st) sent)
      end
  end.

(** [NDVIData.findOneAndUpdate({farm, date, forecast: true}, doc,
    {upsert: true})]: the first matching document is replaced, a new one
    is added when none matches. *)
Fixpoint upsertForecast (doc : NDVISample) (store : list NDVISample) : list NDVISample :=
  match store with
  | [] => [doc]
  | d :: rest =>
      if (String.eqb (farm d) (farm doc) && (date d =? date doc)%Z && forecastFlag d)%bool
      then doc :: rest
      else d :: upsertForecast doc rest
  end.

(** The loop over [forecast.forecast].  A predicted value that is not a
    finite number is refused by the Number cast of the model; the
    exception ends the loop and is swallowed by the [catch]. *)
Fixpoint storeForecastDays (farmId : Key) (points : list ForecastPoint)
    (store : list NDVISample) : list NDVISample :=
  match points with
  | [] => store
  | p :: rest =>
      match predictedNDVI p with
      | JsNum.Fin v =>
          storeForecastDays farmId rest
            (upsertForecast (mkSample farmId (fp_date p * msPerDay) v 0 true) store)
      | _ => store
      end
  end.

Definition setLastAnalysis (a : LastNDVIAnalysis) (f : Farm) : Farm :=
  mkFarm (farm_id f) (farm_name f) (owner f) (cropType f) (area f)
    (farm_isActive f) (Some a).

(** [storeAnalysisResults(farmId, analysis, forecast)] *)
Definition storeAnalysisResults (env : Env) (st : State) (farmId : Key)
    (analysis : Analysis) (fc : Forecast) : State :=
  let summary :=
    mkLastNDVIAnalysis (stressLevel analysis) (confidence analysis)
      (current <$> ndviAnalysis analysis) (nowStore env) in
  mkState (alter (setLastAnalysis summary) farmId (db_farms st)) (db_users st)
    (storeForecastDays farmId (forecast fc) (db_ndvi st))
    (db_alerts st) (stressCache st) (outbox st).

(** The validators of the Alert schema that [alert.save()] runs. *)
Definition alertValid (a : AlertDoc) : bool :=
  (bool_decide (al_stressLevel a ∈ AIStressDetector.levels)
   && Qle_bool 0 (al_confidence a) && Qle_bool (al_confidence a) 1
   && bool_decide (al_urgency a ∈ ["low"; "medium"; "high"; "critical"])
   && bool_decide (al_alertType a ∈ ["sms"; "in_app"; "email"])
   && bool_decide (al_status a ∈ ["pending"; "sent"; "delivered"; "failed"]))%bool.

(** [storeAlertRecord(farmId, analysis, alertResult, farm, farmer)].  The
    last two parameters are [undefined] when the caller passes three
    arguments; reading [farmer._id] then throws, and the [catch] returns
    [null] with nothing saved. *)
Definition storeAlertRecord (env : Env) (st : State) (farmId : Key)
    (analysis : Analysis) (alertResult : SendResult)
    (fm : option Farm) (farmer : option User) : option AlertDoc * State :=
  match farmer, fm with
  | Some farmer, Some fm =>
      let alert :=
        mkAlertDoc farmId (user_id farmer) (stressLevel analysis)
          (confidence analysis)
          (orZero (current <$> ndviAnalysis analysis))
          (recommendations analysis)
          (default [] (riskFactors analysis))
          (analysisText analysis)
          (if sr_success alertResult then "sms" else "in_app")
          (if sr_success alertResult then "sent" else "failed")
          (if sr_success alertResult then Some (nowSend env) else None)
          (phoneNumber farmer)
          (generateAlertMessage (fullName farmer) (farm_name fm) analysis)
          (getUrgencyLevel (stressLevel analysis))
          false in
      if alertValid alert then
        (Some alert,
         mkState (db_farms st) (db_users st) (db_ndvi st)
           (db_alerts st ++ [alert]) (stressCache st) (outbox st))
      else (None, st)
  | _, _ => (None, st)
  end.

(** [analyzeFarmAndAlert(farmId)]; the second parameter, [forceAnalysis],
    is not read by the body. *)
Definition analyzeFarmAndAlert (env : Env) (st : State) (farmId : Key)
    : Result * State :=
  match db_farms st !! farmId with
  | None => (Failed "Farm not found or inactive", st)
  | Some fm =>
    if negb (farm_isActive fm) then (Failed "Farm not found or inactive", st)
    else
    match db_users st !! owner fm with
    | None => (Failed "Farm owner not found or inactive", st)
    | Some farmOwner =>
      if negb (user_isActive farmOwner)
      then (Failed "Farm owner not found or inactive", st)
      else
      let ndviData := findNDVIData (db_ndvi st) farmId in
      if (length ndviData <? 3)%nat
      then (Failed "Insufficient NDVI data for analysis", st)
      else
      let analysis := AIStressDetector.detectCropStress (llm env) ndviData in
      let fc :=
        AIStressDetector.generateStressForecast (today env) (random env) ndviData 14 in
      let st1 := storeAnalysisResults env st farmId analysis fc in
      if shouldSendAlert (stressCache st1) (nowGuard env) farmId analysis then
        let '(alertResult, st2) := sendAlert env st1 farmOwner fm analysis in
        let '(_, st3) := storeAlertRecord env st2 farmId analysis alertResult None None in
        (AlertedResult analysis fc (sr_success alertResult) (sr_messageId alertResult), st3)
      else
        (SuppressedResult analysis fc
           (if String.eqb (stressLevel analysis) "healthy" then None
            else Some "Recently alerted"),
         st1)
    end
  end.

End AlertService.

(** ** [AIStressDetector]: the answers of the language model *)

(** A piece of generated text: a literal, or a number printed by
    [toFixed(3)]. *)
Inductive TextPart :=
| Lit (s : string)
| Fixed3 (q : Q).

(** The object a JSON answer of the model encodes; a field is [None] when
    it is absent or falsy. *)
Record LLMAnswer := mkLLMAnswer {
  ans_stressLevel : option string;
  ans_confidence : option Q;
  ans_recommendations : option (list string);
  ans_analysis : option (list TextPart);
  ans_riskFactors : option (list string)
}.

(** What the endpoint did with the request: the request failed, the answer
    carried a content that parses as a JSON object, a content that does not
    parse, or no content in any of the three places the code looks at. *)
Inductive LLMReply :=
| RequestFailed
| JsonContent (answer : LLMAnswer)
| TextContent (text : string)
| UnexpectedFormat.

(** The object [analyzeWithHuaweiLLM] returns. *)
Record LLMAnalysis := mkLLMAnalysis {
  llm_stressLevel : string;
  llm_confidence : Q;
  llm_recommendations : list string;
  llm_ndviAnalysis : NdviAnalysis;
  llm_analysis : list TextPart;
  llm_riskFactors : list string
}.

(** The object [interpretAIResults] returns; [None] stands for
    [undefined]. *)
Record Interpretation := mkInterpretation {
  it_stressLevel : option string;
  it_confidence : option Q;
  it_recommendations : list string;
  it_aiModel : string;
  it_aiConfidence : option Q;
  it_ruleBasedConfidence : option Q
}.

Module LLM.

(** [text.toLowerCase()] on the letters A to Z; the words looked for are
    ASCII. *)
Definition lowerAscii (c : Ascii.ascii) : Ascii.ascii :=
  let n := Ascii.nat_of_ascii c in
  if ((65 <=? n)%nat && (n <=? 90)%nat)%bool then Ascii.ascii_of_nat (n + 32) else c.

Fixpoint toLowerCase (s : string) : string :=
  match s with
  | EmptyString => EmptyString
  | String c rest => String (lowerAscii c) (toLowerCase rest)
  end.

(** [hay.includes(needle)] *)
Fixpoint includes (needle hay : string) : bool :=
  (String.prefix needle hay
   || match hay with
      | EmptyString => false
      | String _ rest => includes needle rest
      end)%bool.

(** [ndviTrend < -0.05 ? 'declining' : ndviTrend > 0.05 ? 'improving' :
    'stable'] *)
Definition trendLabel (ndviTrend : JsNum.t) : string :=
  if JsNum.ltb ndviTrend (JsNum.Fin (- (5 # 100))) then "declining"
  else if JsNum.ltb (JsNum.Fin (5 # 100)) ndviTrend then "improving"
  else "stable".

(** [farmMetadata.cropType || 'unknown'] *)
Definition cropTypeOr (cropType : option string) : string :=
  match cropType with
  | Some c => if String.eqb c "" then "unknown" else c
  | None => "unknown"
  end.

(** [generateMockLLMResponse(latestNDVI, avgNDVI, ndviTrend, farmMetadata)];
    the JSON text it returns is represented by the object it encodes. *)
Definition generateMockLLMResponse (latestNDVI : Q) (ndviTrend : JsNum.t)
    (cropType : option string) : LLMAnswer :=
  let crop := cropTypeOr cropType in
  let trend := trendLabel ndviTrend in
  let '(level, conf, analysis, recs, risks) :=
    if Qltb latestNDVI (2 # 10) then
      ("severe", 95 # 100,
       [Lit "Critical crop stress detected for "; Lit crop;
        Lit " field. Current NDVI of "; Fixed3 latestNDVI;
        Lit " indicates severe vegetation stress or potential crop loss."],
       ["Immediate emergency irrigation (minimum 50mm)";
        "Apply nitrogen-rich fertilizer within 24 hours";
        "Check for pest infestation and disease outbreaks";
        "Consider crop-saving measures or partial harvesting"],
       ["Severe water stress"; "Possible disease outbreak"; "Nutrient deficiency"])
    else if Qltb latestNDVI (35 # 100) then
      ("high", 85 # 100,
       [Lit "High stress levels detected in "; Lit crop;
        Lit " cultivation. NDVI of "; Fixed3 latestNDVI; Lit " with ";
        Lit trend; Lit " trend requires immediate attention."],
       ["Increase irrigation frequency by 50%";
        "Apply balanced NPK fertilizer (15-15-15)";
        "Daily monitoring for pest damage";
        "Consider mulching to retain soil moisture"],
       ["Water deficiency"; "Possible pest pressure"; "Nutrient imbalance"])
    else if Qltb latestNDVI (5 # 10) then
      ("moderate", 75 # 100,
       [Lit "Moderate stress observed in "; Lit crop; Lit " field. NDVI of ";
        Fixed3 latestNDVI; Lit " suggests suboptimal growing conditions."],
       ["Maintain regular irrigation schedule";
        "Apply light fertilizer if needed";
        "Weekly monitoring for changes";
        "Consider preventive pest control measures"],
       ["Mild water stress"; "Early signs of nutrient deficiency"])
    else if Qltb latestNDVI (65 # 100) then
      ("low", 80 # 100,
       [Lit "Low stress levels detected in "; Lit crop; Lit " crop. NDVI of ";
        Fixed3 latestNDVI;
        Lit " indicates generally healthy conditions with minor issues."],
       ["Continue normal irrigation schedule";
        "Monitor soil moisture levels";
        "Standard fertilization program";
        "Regular field scouting"],
       ["Minor environmental stress"; "Potential weed competition"])
    else
      ("healthy", 90 # 100,
       [Lit "Excellent crop health observed for "; Lit crop; Lit ". NDVI of ";
        Fixed3 latestNDVI; Lit " indicates optimal growing conditions."],
       ["Maintain current agricultural practices";
        "Continue regular monitoring";
        "Prepare for optimal harvest timing";
        "Document successful practices for future seasons"],
       ["Maintain vigilance against pests"; "Monitor weather changes"]) in
  let '(recs, risks) :=
    if String.eqb trend "declining" then
      (recs ++ ["URGENT: Address declining health trend immediately"],
       risks ++ ["Rapid health deterioration"])
    else (recs, risks) in
  mkLLMAnswer (Some level) (Some conf) (Some recs) (Some analysis) (Some risks).

(** [parseTextResponse(textResponse)] *)
Definition parseTextResponse (textResponse : string) : LLMAnswer :=
  let lowerText := toLowerCase textResponse in
  let level :=
    if (includes "severe" lowerText || includes "critical" lowerText)%bool then "severe"
    else if (includes "high" lowerText || includes "serious" lowerText)%bool then "high"
    else if (includes "low" lowerText || includes "mild" lowerText)%bool then "low"
    else if (includes "healthy" lowerText || includes "good" lowerText)%bool then "healthy"
    else "moderate" in
  mkLLMAnswer (Some level) (Some (7 # 10))
    (Some ["Monitor crop conditions"; "Follow standard agricultural practices"])
    (Some [Lit "Crop health assessment based on satellite data analysis"])
    (Some ["Environmental conditions"; "Weather patterns"]).

(** [x || d] for a string: the empty string is falsy. *)
Definition stringOr (x : option string) (d : string) : string :=
  match x with
  | Some v => if String.eqb v "" then d else v
  | None => d
  end.

(** [x || d] for a finite number: zero is falsy. *)
Definition numberOr (x : option Q) (d : Q) : Q :=
  match x with
  | Some v => if Qeq_bool v 0 then d else v
  | None => d
  end.

(** [analyzeWithHuaweiLLM(ndviData, coordinates, farmMetadata)] for a given
    behaviour of the endpoint; [None] is the [null] of the [catch] branch.
    An empty content is falsy, so the chain of tests treats it as missing
    and the generated answer takes its place; the generated text is never
    empty, so the [throw] after the chain is not reached. *)
Definition analyzeWithHuaweiLLM (reply : LLMReply) (ndviData : list NDVISample)
    (cropType : option string) : option LLMAnalysis :=
  let latestNDVI := AIStressDetector.latestNDVI ndviData in
  let avgNDVI := AIStressDetector.averageNDVI ndviData in
  let ndviTrend := AIStressDetector.calculateNDVITrend ndviData in
  let build (aiAnalysis : LLMAnswer) :=
    Some (mkLLMAnalysis
            (stringOr (ans_stressLevel aiAnalysis) "unknown")
            (numberOr (ans_confidence aiAnalysis) (7 # 10))
            (default ["Monitor crop conditions"] (ans_recommendations aiAnalysis))
            (mkNdviAnalysis latestNDVI avgNDVI ndviTrend)
            (default [Lit "Crop health analysis completed"] (ans_analysis aiAnalysis))
            (default [] (ans_riskFactors aiAnalysis))) in
  match reply with
  | RequestFailed => None
  | JsonContent aiAnalysis => build aiAnalysis
  | TextContent text =>
      if String.eqb text "" then
        build (generateMockLLMResponse latestNDVI ndviTrend cropType)
      else build (parseTextResponse text)
  | UnexpectedFormat =>
      build (generateMockLLMResponse latestNDVI ndviTrend cropType)
  end.

(** The fields of an [LLMAnalysis] the orchestrator reads. *)
Definition toAnalysis (a : LLMAnalysis) : Analysis :=
  mkAnalysis (llm_stressLevel a) (llm_confidence a) (llm_recommendations a)
    (Some (llm_ndviAnalysis a)) "huawei-llm" (Some (llm_riskFactors a)) None.

(** [generateRecommendations(stressLevel, ndviData)]: the table has the five
    levels as keys, anything else gets the list of [healthy]. *)
Definition generateRecommendations (level : option string) : list string :=
  let healthy :=
    ["Maintain current practices"; "Continue regular monitoring";
     "Consider preventive measures"] in
  match level with
  | None => healthy
  | Some l =>
      if String.eqb l "severe" then
        ["Immediate irrigation required (2-3 inches)";
         "Apply nitrogen-rich fertilizer immediately";
         "Check for pest infestation and disease";
         "Consider crop-saving emergency measures"]
      else if String.eqb l "high" then
        ["Increase irrigation frequency"; "Apply balanced NPK fertilizer";
         "Monitor for pest damage daily"; "Consider crop protection measures"]
      else if String.eqb l "moderate" then
        ["Maintain regular irrigation schedule"; "Apply light fertilizer if needed";
         "Weekly monitoring recommended"; "Consider preventive pest control"]
      else if String.eqb l "low" then
        ["Continue normal irrigation"; "Monitor weekly";
         "Maintain current fertilization schedule"]
      else healthy
  end.

(** [Math.max(...arr)] on finite numbers; [None] is [-Infinity], the value
    for no argument. *)
Fixpoint maxOf (arr : list Q) : option Q :=
  match arr with
  | [] => None
  | x :: rest =>
      match maxOf rest with
      | None => Some x
      | Some m => Some (if Qle_bool m x then x else m)
      end
  end.

(** [arr.indexOf(x)] on numbers, [None] for [-1]. *)
Fixpoint indexOfNumber (x : Q) (arr : list Q) : option nat :=
  match arr with
  | [] => None
  | y :: rest => if Qeq_bool y x then Some 0%nat else S <$> indexOfNumber x rest
  end.

(** [interpretAIResults(aiOutput, ndviData)] with the threshold the
    constructor read from the environment. *)
Definition interpretAIResults (confidenceThreshold : Q) (aiOutput : list Q)
    (ndviData : list NDVISample) : Interpretation :=
  let maxIndex := maxOf aiOutput ≫= fun m => indexOfNumber m aiOutput in
  let detectedLevel := maxIndex ≫= fun i => AIStressDetector.levels !! i in
  let conf := maxIndex ≫= fun i => aiOutput !! i in
  let low :=
    match conf with
    | Some c => Qltb c confidenceThreshold
    | None => false
    end in
  if low then
    let ruleBased := AIStressDetector.analyzeWithRules ndviData in
    mkInterpretation (Some (stressLevel ruleBased)) (Some (confidence ruleBased))
      (recommendations ruleBased) "hybrid" conf (Some (confidence ruleBased))
  else
    mkInterpretation detectedLevel conf (generateRecommendations detectedLevel)
      "huawei-llm" conf None.

End LLM.

(** ** [SMSService]: bulk alerts *)

(** An element of the [farmers] argument of [sendBulkAlerts]. *)
Record BulkFarmer := mkBulkFarmer {
  bf_farmerId : Key;
  bf_farmId : Key;
  bf_phoneNumber : option string;
  bf_fullName : string;
  bf_farmName : string
}.

(** An element of its [stressData] argument. *)
Record FarmStress := mkFarmStress {
  fs_farmId : Key;
  fs_stressLevel : string;
  fs_recommendations : list string
}.

(** A template request of [SMSService.sendAlert]. *)
Record TemplateRequest := mkTemplateRequest {
  tr_to : string;
  tr_templateParas : list string
}.

Record BulkResult := mkBulkResult {
  br_farmerId : Key;
  br_farmId : Key;
  br_result : SendResult
}.

Record BulkSummary := mkBulkSummary {
  totalSent : nat;
  successCount : nat;
  failureCount : nat;
  br_results : list BulkResult
}.

Module SMSBulk.

(** [arr.join(sep)] *)
Fixpoint join (sep : string) (arr : list string) : string :=
  match arr with
  | [] => ""
  | [x] => x
  | x :: rest => x +:+ sep +:+ join sep rest
  end.

(** [SMSService.sendAlert(phoneNumber, farmerName, farmName, stressLevel,
    recommendations)]: the request it builds, and the result for the answer
    [gateway] of the endpoint ([None] when sending fails). *)
Definition sendAlert (gateway : option (option string)) (phone farmerName
    farmName level : string) (recs : list string) : TemplateRequest * SendResult :=
  let request :=
    mkTemplateRequest ("+" +:+ phone)
      [farmerName; farmName; level; join ", " (take 2 recs)] in
  match gateway with
  | Some sid => (request, mkSendResult true sid None)
  | None => (request, mkSendResult false None (Some "request failed"))
  end.

(** [stressData.find(f => f.farmId === farmer.farmId)] *)
Definition findStress (stressData : list FarmStress) (farmId : Key) : option FarmStress :=
  head (filter (fun f => fs_farmId f = farmId) stressData).

(** [farmer.phoneNumber] as a condition: a missing or empty number is
    falsy. *)
Definition truthyPhone (phone : option string) : option string :=
  match phone with
  | Some p => if String.eqb p "" then None else Some p
  | None => None
  end.

(** The loop of [sendBulkAlerts]; [sent] collects the requests built, and
    [gateway k] is the answer to the [k]-th of them. *)
Fixpoint bulkLoop (gateway : nat -> option (option string))
    (stressData : list FarmStress) (farmers : list BulkFarmer)
    (sent : list TemplateRequest) (results : list BulkResult)
    : list TemplateRequest * list BulkResult :=
  match farmers with
  | [] => (sent, results)
  | farmer :: rest =>
      match findStress stressData (bf_farmId farmer), truthyPhone (bf_phoneNumber farmer) with
      | Some fm, Some phone =>
          if negb (String.eqb (fs_stressLevel fm) "healthy") then
            let '(request, result) :=
              sendAlert (gateway (length sent)) phone (bf_fullName farmer)
                (bf_farmName farmer) (fs_stressLevel fm) (fs_recommendations fm) in
            bulkLoop gateway stressData rest (sent ++ [request])
              (results ++ [mkBulkResult (bf_farmerId farmer) (bf_farmId farmer) result])
          else bulkLoop gateway stressData rest sent results
      | _, _ => bulkLoop gateway stressData rest sent results
      end
  end.

(** [sendBulkAlerts(farmers, stressData)], with the requests it built. *)
Definition sendBulkAlerts (gateway : nat -> option (option string))
    (farmers : list BulkFarmer) (stressData : list FarmStress)
    : list TemplateRequest * BulkSummary :=
  let '(sent, results) := bulkLoop gateway stressData farmers [] [] in
  (sent,
   mkBulkSummary (length results)
     (length (filter (fun r => sr_success (br_result r) = true) results))
     (length (filter (fun r => sr_success (br_result r) = false) results))
     results).

End SMSBulk.

(** ** [AlertService]: all farms, and statistics *)

(** An entry of the [results] array of [analyzeAllFarms]. *)
Record FarmResult := mkFarmResult {
  fr_farmId : Key;
  fr_farmName : string;
  fr_result : Result
}.

Record AllFarmsSummary := mkAllFarmsSummary {
  totalFarms : nat;
  analyzed : nat;
  alertsSent : nat;
  healthy : nat
}.

(** An Alert document with the [createdAt] the schema gives it. *)
Record StoredAlert := mkStoredAlert {
  sa_alert : AlertDoc;
  sa_createdAt : Z
}.

Record AlertStatistics := mkAlertStatistics {
  totalAlerts : nat;
  byStressLevel : gmap string nat;
  byDay : gmap Z nat;
  averageConfidence : Q;
  alertTypes : gmap string nat;
  urgency : gmap string nat;
  acknowledged : nat;
  unacknowledged : nat
}.

Module AlertServiceMore.

(** [r.result.alertSent] as a condition; a failure has no such field. *)
Definition alertSentOf (r : Result) : bool :=
  match r with
  | AlertedResult _ _ sent _ => sent
  | _ => false
  end.

(** [r.result.analysis?.stressLevel === 'healthy'] *)
Definition isHealthy (r : Result) : bool :=
  match r with
  | AlertedResult a _ _ _ | SuppressedResult a _ _ => String.eqb (stressLevel a) "healthy"
  | Failed _ => false
  end.

(** The loop of [analyzeAllFarms] over the farms found; [envOf fm] is what
    the call for [fm] reads from outside. *)
Fixpoint analyzeEach (envOf : Farm -> Env) (farms : list Farm) (st : State)
    : list FarmResult * State :=
  match farms with
  | [] => ([], st)
  | fm :: rest =>
      let '(result, st1) :=
        AlertService.analyzeFarmAndAlert (envOf fm) st (farm_id fm) in
      let '(results, st2) := analyzeEach envOf rest st1 in
      (mkFarmResult (farm_id fm) (farm_name fm) result :: results, st2)
  end.

(** [Farm.find({ isActive: true })], in the order of the collection. *)
Definition findActiveFarms (st : State) : list Farm :=
  filter (fun fm => farm_isActive fm = true) (map_to_list (db_farms st)).*2.

(** [analyzeAllFarms()] *)
Definition analyzeAllFarms (envOf : Farm -> Env) (st : State)
    : AllFarmsSummary * list FarmResult * State :=
  let farms := findActiveFarms st in
  let '(results, st') := analyzeEach envOf farms st in
  (mkAllFarmsSummary (length farms) (length results)
     (length (filter (fun r => alertSentOf (fr_result r) = true) results))
     (length (filter (fun r => isHealthy (fr_result r) = true) results)),
   results, st').

(** [m[k] = (m[k] || 0) + 1] *)
Definition bump {K} `{Countable K} (k : K) (m : gmap K nat) : gmap K nat :=
  <[k := S (default 0%nat (m !! k))]> m.

(** The body of the [forEach] of [getAlertStatistics]. *)
Definition countAlert (a : StoredAlert)
    (acc : AlertStatistics * Q) : AlertStatistics * Q :=
  let '(stats, totalConfidence) := acc in
  let doc := sa_alert a in
  (mkAlertStatistics (totalAlerts stats)
     (bump (al_stressLevel doc) (byStressLevel stats))
     (bump (sa_createdAt a / AlertService.msPerDay) (byDay stats))
     (averageConfidence stats)
     (bump (al_alertType doc) (alertTypes stats))
     (bump (al_urgency doc) (urgency stats))
     (if al_acknowledged doc then S (acknowledged stats) else acknowledged stats)
     (if al_acknowledged doc then unacknowledged stats else S (unacknowledged stats)),
   (totalConfidence + orZero (Some (al_confidence doc)))%Q).

(** [Alert.find({ createdAt: { $gte: since }, userId })]; an empty
    [userId] is falsy and leaves the query without that condition. *)
Definition matchesQuery (since : Z) (userId : option Key) (a : StoredAlert) : bool :=
  ((since <=? sa_createdAt a)%Z
   && match userId with
      | Some u => String.eqb u "" || String.eqb (al_userId (sa_alert a)) u
      | None => true
      end)%bool.

Definition findAlertsSince (since : Z) (userId : option Key)
    (alerts : list StoredAlert) : list StoredAlert :=
  filter (fun a => matchesQuery since userId a = true) alerts.

(** [getAlertStatistics(days, userId)] at time [now]; [days] calendar days
    are taken as [days] times 24 hours, and the key of [byDay] is the day
    number of [createdAt]. *)
Definition getAlertStatistics (now : Z) (days : Z) (userId : option Key)
    (collection : list StoredAlert) : AlertStatistics :=
  let since := now - days * AlertService.msPerDay in
  let alerts := findAlertsSince since userId collection in
  let initial :=
    mkAlertStatistics (length alerts) ∅ ∅ 0
      (<["sms" := 0%nat]> (<["in_app" := 0%nat]> (<["email" := 0%nat]> ∅)))
      (<["low" := 0%nat]> (<["medium" := 0%nat]> (<["high" := 0%nat]>
         (<["critical" := 0%nat]> ∅))))
      0 0 in
  let '(stats, totalConfidence) :=
    fold_left (fun acc a => countAlert a acc) alerts (initial, 0%Q) in
  mkAlertStatistics (totalAlerts stats) (byStressLevel stats) (byDay stats)
    (if (0 <? length alerts)%nat
     then (totalConfidence / AIStressDetector.ofNat (length alerts))%Q else 0%Q)
    (alertTypes stats) (urgency stats) (acknowledged stats) (unacknowledged stats).

End AlertServiceMore.

(** ** Routes and mocked services around the classifier *)

(** A video of [VideoEducationService]. *)
Record Video := mkVideo {
  videoId : string;
  title : string;
  description : string;
  thumbnail : string;
  duration : string;
  channelName : string;
  publishedAt : string;
  tags : list string
}.

(** The object [getVideosByCategory] returns. *)
Record VideoList := mkVideoList {
  vl_category : string;
  vl_query : string;
  vl_totalResults : nat;
  vl_videos : list Video
}.

(** A point of [getTimeSeriesNDVI]. *)
Record SeriesPoint := mkSeriesPoint {
  sp_date : Z;
  sp_ndvi : Q;
  sp_cloudCover : Q
}.

(** A point of the route's [generateNDVIForecast]. *)
Record RouteForecastPoint := mkRouteForecastPoint {
  rf_date : Z;
  rf_predictedNDVI : JsNum.t;
  rf_confidence : Q
}.

Module VideoEducationService.

Definition videoTemplates : list Video :=
  [mkVideo "video_001" "Understanding Crop Stress Factors"
     "Comprehensive guide to identifying various types of crop stress"
     "https://img.youtube.com/vi/video_001/default.jpg" "10:30"
     "FarmSight Education" "2024-01-10" ["crop stress"; "agriculture"; "farming"];
   mkVideo "video_002" "Modern Farming Techniques"
     "Learn about the latest technology in agricultural management"
     "https://img.youtube.com/vi/video_002/default.jpg" "14:15"
     "AgTech Solutions" "2024-01-25" ["technology"; "farming"; "modern agriculture"];
   mkVideo "video_003" "Sustainable Farming Practices"
     "Eco-friendly approaches to crop management"
     "https://img.youtube.com/vi/video_003/default.jpg" "12:00"
     "Green Agriculture" "2024-02-05" ["sustainable"; "eco-friendly"; "organic farming"]].

(** [arr.slice(0, count)] for an integer [count]: a negative [count] counts
    from the end. *)
Definition sliceTo {A} (count : Z) (arr : list A) : list A :=
  if (count <? 0)%Z then take (length arr - Z.to_nat (- count))%nat arr
  else take (Z.to_nat count) arr.

Definition generateMockVideos (category : string) (count : Z) : list Video :=
  sliceTo count videoTemplates.

(** [categoryQueries[category] || categoryQueries['general']]; names that
    every object inherits, such as [constructor], are not modelled. *)
Definition categoryQuery (category : string) : string :=
  if String.eqb category "drought" then "crop drought management irrigation"
  else if String.eqb category "pests" then "crop pest control identification treatment"
  else if String.eqb category "nutrients" then
    "crop nutrient deficiency fertilizer management"
  else if String.eqb category "irrigation" then "farm irrigation systems water management"
  else if String.eqb category "harvesting" then "crop harvesting techniques timing"
  else "agriculture farming best practices".

Definition getVideosByCategory (category : string) (maxResults : Z) : VideoList :=
  let query := categoryQuery category in
  let videos := generateMockVideos category maxResults in
  mkVideoList category query (length videos) videos.

End VideoEducationService.

Module EarthEngineService.

(** The loop of [getTimeSeriesNDVI] in day numbers: one point every eighth
    day from [d] while [d <= endDay].  Each round draws twice from
    [random]. *)
Fixpoint seriesLoop (fuel : nat) (random : nat -> Q) (endDay d : Z)
    (timeSeries : list SeriesPoint) : list SeriesPoint :=
  match fuel with
  | O => timeSeries
  | S fuel' =>
      if (d <=? endDay)%Z then
        let k := length timeSeries in
        seriesLoop fuel' random endDay (d + 8)
          (timeSeries ++
             [mkSeriesPoint d (random (2 * k)%nat * (5 # 10) + (4 # 10))%Q
                (random (2 * k + 1)%nat * 20)%Q])
      else timeSeries
  end.

(** [getTimeSeriesNDVI(coordinates, startDate, endDate)]; the loop ends
    after [(endDay - startDay) / 8 + 1] rounds at the latest. *)
Definition getTimeSeriesNDVI (random : nat -> Q) (startDay endDay : Z) : list SeriesPoint :=
  seriesLoop (Z.to_nat ((endDay - startDay) / 8 + 1)) random endDay startDay [].

End EarthEngineService.

Module Routes.

(** The stress level of [GET /:farmId/stress-level]. *)
Definition stressLevelOfLatest (latest : Q) : string :=
  if Qltb latest (2 # 10) then "severe"
  else if Qltb latest (3 # 10) then "high"
  else if Qltb latest (4 # 10) then "moderate"
  else if Qltb latest (5 # 10) then "low"
  else "none".

(** The body of the loop of [generateNDVIForecast] for day [i]. *)
Definition routeForecastDay (today : Z) (random : Z -> Q) (avgNDVI : JsNum.t)
    (forecastDays i : Z) : RouteForecastPoint :=
  let trend := (inject_Z i * (2 # 1000))%Q in
  let randomVariation := ((random i - (5 # 10)) * (5 # 100))%Q in
  let predictedNDVI :=
    JsNum.clamp 0 1
      (JsNum.add (JsNum.add avgNDVI (JsNum.Fin trend)) (JsNum.Fin randomVariation)) in
  mkRouteForecastPoint (today + i) predictedNDVI
    (AIStressDetector.dayConfidence i forecastDays).

Fixpoint routeForecastLoop (fuel : nat) (mk : Z -> RouteForecastPoint)
    (forecastDays i : Z) (acc : list RouteForecastPoint) : list RouteForecastPoint :=
  match fuel with
  | O => acc
  | S fuel' =>
      if (i <=? forecastDays)%Z
      then routeForecastLoop fuel' mk forecastDays (i + 1) (acc ++ [mk i])
      else acc
  end.

(** [generateNDVIForecast(historicalData, forecastDays)] of
    [routes/satellite.js], on the NDVI values of the history. *)
Definition generateNDVIForecast (today : Z) (random : Z -> Q)
    (historicalData : list Q) (forecastDays : Z) : list RouteForecastPoint :=
  let recentNDVI := AIStressDetector.sliceLast 8 historicalData in
  let avgNDVI :=
    JsNum.div (fold_left (fun sum d => (sum + d)%Q) recentNDVI 0%Q)
      (AIStressDetector.ofNat (length recentNDVI)) in
  routeForecastLoop (Z.to_nat forecastDays)
    (routeForecastDay today random avgNDVI forecastDays) forecastDays 1 [].

End Routes.

(** ** Sample data *)

Module Examples.

(** A sample of farm [farm1] taken on day [day]. *)
Definition sample (day : Z) (v : Q) : NDVISample :=
  mkSample "farm1" (day * 86400000) v 0 false.

(** Date-descending, as the orchestrator's query delivers them. *)
Definition healthy_scenario : list NDVISample :=
  [sample 3 (82 # 100); sample 2 (80 # 100); sample 1 (78 # 100)].

(** [healthy_scenario] with another oldest sample. *)
Definition oldest_changed : list NDVISample :=
  [sample 3 (82 # 100); sample 2 (80 # 100); sample 1 (10 # 100)].

(** [healthy_scenario] with another most recent sample. *)
Definition newest_changed : list NDVISample :=
  [sample 3 (10 # 100); sample 2 (80 # 100); sample 1 (78 # 100)].

Definition steady_045 : list NDVISample :=
  [sample 3 (45 # 100); sample 2 (45 # 100); sample 1 (45 # 100)].

(** First and last sample 0.38, regression slope -0.08. *)
Definition scenario_038 : list NDVISample :=
  [sample 4 (38 # 100); sample 3 (90 # 100); sample 2 (10 # 100);
   sample 1 (38 # 100)].

Definition two_samples : list NDVISample :=
  [sample 2 (30 # 100); sample 1 (25 # 100)].

Definition high_stress : list NDVISample :=
  [sample 3 (25 # 100); sample 2 (25 # 100); sample 1 (25 # 100)].

Definition severe_stress : list NDVISample :=
  [sample 4 (15 # 100); sample 3 (15 # 100); sample 2 (15 # 100)].

Definition farm1 : Farm :=
  mkFarm "farm1" "Java Rice Fields" "user1" "rice" (2505 # 10) true None.

Definition user1 : User :=
  mkUser "user1" "Test Farmer" (Some "+1234567890") true.

(** One active farm with an active owner and the given NDVI documents; no
    alert stored, nothing cached, nothing sent. *)
Definition stateWith (docs : list NDVISample) : State :=
  mkState {[ "farm1" := farm1 ]} {[ "user1" := user1 ]} docs [] ∅ [].

(** A call at time [now] (milliseconds) with no language-model answer and
    a gateway that accepts the request. *)
Definition envAt (now : Z) : Env :=
  mkEnv (now / 86400000) now now now (fun _ => 1 # 2) None true (Some "sid-1").

Definition oneHour : Z := 3600000.

Definition t0 : Z := 1700000000000.

End Examples.

(** ** A farm as the routes load it *)

Module RouteExamples.

Definition farmHex : string := "64f0c0ffee0000000000a001".

Definition userHex : string := "64f0c0ffee0000000000b001".

(** The document [Farm.findById(farmHex)] returns: its [_id] is an
    ObjectId object, its owner is found by value. *)
Definition storedFarm : Farm :=
  mkFarm (objectKey farmHex) "Java Rice Fields" userHex "rice" (2505 # 10)
    true None.

Definition storedUser : User :=
  mkUser (objectKey userHex) "Test Farmer" (Some "+1234567890") true.

Definition sample (day : Z) (v : Q) : NDVISample :=
  mkSample farmHex (day * 86400000) v 0 false.

(** Three samples at 0.25: [high] stress, no trend. *)
Definition high_stress : list NDVISample :=
  [sample 3 (25 # 100); sample 2 (25 # 100); sample 1 (25 # 100)].

(** The farm, its owner and the three samples; no alert stored, nothing
    cached, nothing sent. *)
Definition initial : State :=
  mkState {[ farmHex := storedFarm ]} {[ userHex := storedUser ]}
    high_stress [] ∅ [].

(** [POST /api/alerts/analyze/farmHex] at [t0]. *)
Definition afterFirstCall : Result * State :=
  AlertService.analyzeFarmAndAlert (Examples.envAt Examples.t0) initial farmHex.

(** The same request one hour later, on the state the first call left. *)
Definition afterSecondCall : Result * State :=
  AlertService.analyzeFarmAndAlert
    (Examples.envAt (Examples.t0 + Examples.oneHour)) afterFirstCall.2 farmHex.

End RouteExamples.

(** ** The failure conditions in the specification's words *)

Module Spec.

(** The farm is missing or inactive. *)
Definition farmUnresolved (st : State) (farmId : Key) : Prop :=
  match db_farms st !! farmId with
  | None => True
  | Some fm => farm_isActive fm = false
  end.

(** The farm is stored and its owner is missing or inactive. *)
Definition ownerUnresolved (st : State) (farmId : Key) : Prop :=
  match db_farms st !! farmId with
  | None => False
  | Some fm =>
      match db_users st !! owner fm with
      | None => True
      | Some u => user_isActive u = false
      end
  end.

(** Fewer than three NDVI documents are stored for the farm. *)
Definition fewSamples (st : State) (farmId : Key) : Prop :=
  (length (filter (fun d => farm d = farmId) (db_ndvi st)) < 3)%nat.

End Spec.

(** ** More sample data *)

Module MoreExamples.

(** Three samples on the line [0.54 - 0.08 * index]. *)
Definition declining_line : list NDVISample :=
  [Examples.sample 1 (54 # 100); Examples.sample 2 (46 # 100);
   Examples.sample 3 (38 # 100)].

Definition five_samples : list NDVISample :=
  [Examples.sample 1 (60 # 100); Examples.sample 2 (55 # 100);
   Examples.sample 3 (50 # 100); Examples.sample 4 (45 # 100);
   Examples.sample 5 (40 # 100)].

Definition older_samples : list NDVISample :=
  [Examples.sample (-1) (10 # 100); Examples.sample 0 (90 # 100)].

Definition critical_text : string := "The crop is in CRITICAL condition".

(** The first point of a 14-day forecast for [steady_045] made on day 0
    with a random source that always returns one half. *)
Definition first_forecast_day : ForecastPoint :=
  AIStressDetector.forecastDay 0 (fun _ => 1 # 2)
    (AIStressDetector.calculateNDVITrend Examples.steady_045) (45 # 100) 14 1.

End MoreExamples.

(** ** Vocabulary of the statements *)

Module Vocabulary.

(** Every character is one of 0 to 9. *)
Fixpoint allDigits (s : string) : bool :=
  match s with
  | EmptyString => true
  | String c rest => (SMSService.isDigit c && allDigits rest)%bool
  end.

(** The store holds a forecast document of farm [farmId] for [day]. *)
Definition hasForecastDoc (farmId : Key) (day : Z) (store : list NDVISample) : bool :=
  existsb (fun d => (String.eqb (farm d) farmId && (date d =? day)%Z && forecastFlag d)%bool)
    store.

(** The dates never increase along the list. *)
Fixpoint descending (l : list NDVISample) : Prop :=
  match l with
  | [] => True
  | d :: rest => (forall e, e ∈ rest -> date e <= date d) /\ descending rest
  end.

(** A document that was measured, not forecast. *)
Definition measured (d : NDVISample) : Prop := forecastFlag d = false.

(** One of the words occurs in the text, in any letter case. *)
Definition mentionsAny (words : list string) (text : string) : bool :=
  existsb (fun w => LLM.includes w (LLM.toLowerCase text)) words.

(** The words [parseTextResponse] looks for. *)
Definition levelWords : list string :=
  ["severe"; "critical"; "high"; "serious"; "low"; "mild"; "healthy"; "good"].

(** The points of a time series are the rounds [0 .. length - 1] of its
    loop. *)
Definition seriesInvariant (random : nat -> Q) (startDay endDay : Z)
    (timeSeries : list SeriesPoint) : Prop :=
  forall k p, timeSeries !! k = Some p ->
    sp_date p = startDay + 8 * Z.of_nat k
    /\ sp_date p <= endDay
    /\ (sp_ndvi p == random (2 * k)%nat * (5 # 10) + (4 # 10))%Q
    /\ (sp_cloudCover p == random (2 * k + 1)%nat * 20)%Q.

(** The sum of the counters of a map. *)
Definition totalCount {K} `{Countable K} (m : gmap K nat) : nat :=
  map_fold (fun _ n acc => (n + acc)%nat) 0%nat m.

End Vocabulary.

(** * Properties *)

(** ** Comparisons and divisions *)

Lemma Qltb_true (x y : Q) : Qltb x y = true <-> (x < y)%Q.
Proof.
  unfold Qltb. rewrite negb_true_iff. split; intros H.
  - apply Qnot_le_lt. intros Hle. apply Qle_bool_iff in Hle. congruence.
  - destruct (Qle_bool y x) eqn:E; [|reflexivity].
    apply Qle_bool_iff in E. exfalso. exact (Qle_not_lt _ _ E H).
Qed.

Lemma Qltb_false (x y : Q) : Qltb x y = false <-> (y <= x)%Q.
Proof.
  unfold Qltb. rewrite negb_false_iff. apply Qle_bool_iff.
Qed.

Lemma ltb_Fin (a b : Q) : JsNum.ltb (JsNum.Fin a) (JsNum.Fin b) = Qltb a b.
Proof. reflexivity. Qed.

Lemma div_finite (a b : Q) :
  ~ (b == 0)%Q -> JsNum.div a b = JsNum.Fin (a / b).
Proof.
  intros Hb. unfold JsNum.div.
  destruct (Qeq_bool b 0) eqn:E; [|reflexivity].
  apply Qeq_bool_iff in E. contradiction.
Qed.

(** ** The regression behind the trend *)

Section Trend.
Import AIStressDetector.

Lemma sliceLast_length {A} (k : nat) (arr : list A) :
  length (sliceLast k arr) = Nat.min k (length arr).
Proof. unfold sliceLast. rewrite length_drop. lia. Qed.

Lemma mapi_from_xs (k : nat) (arr : list NDVISample) :
  map fst (mapi_from (fun d i => (ofNat i, ndvi d)) k arr)
  = map ofNat (seq k (length arr)).
Proof.
  revert k. induction arr as [|d rest IH]; intros k; simpl; [reflexivity|].
  f_equal. apply IH.
Qed.

Lemma mapi_from_length {A B} (f : A -> nat -> B) (k : nat) (arr : list A) :
  length (mapi_from f k arr) = length arr.
Proof.
  revert k. induction arr as [|d rest IH]; intros k; simpl; [reflexivity|].
  f_equal. apply IH.
Qed.

(** With two to five points at the indices [0, 1, ...] the denominator is
    1, 6, 20 or 50. *)
Lemma regressionDenominator_indices (recent : list NDVISample) :
  (2 <= length recent <= 5)%nat ->
  (0 < regressionDenominator (mapi_from (fun d i => (ofNat i, ndvi d)) 0 recent))%Q.
Proof.
  intros Hlen.
  destruct recent as [|a [|b [|c [|e [|f [|g rest]]]]]]; simpl in Hlen;
    try lia; reflexivity.
Qed.

Lemma trendPoints_denominator (ndviData : list NDVISample) :
  (2 <= length ndviData)%nat ->
  (0 < regressionDenominator (trendPoints ndviData))%Q.
Proof.
  intros Hlen. unfold trendPoints. apply regressionDenominator_indices.
  rewrite sliceLast_length. lia.
Qed.

Lemma calculateNDVITrend_regression (ndviData : list NDVISample) :
  (2 <= length ndviData)%nat ->
  calculateNDVITrend ndviData
  = JsNum.Fin (regressionNumerator (trendPoints ndviData)
               / regressionDenominator (trendPoints ndviData)).
Proof.
  intros Hlen. unfold calculateNDVITrend.
  destruct (Nat.ltb_spec (length ndviData) 2) as [Hlt|_]; [lia|].
  destruct (Nat.ltb_spec (length (sliceLast 5 ndviData)) 2) as [Hlt|_].
  { rewrite sliceLast_length in Hlt. lia. }
  unfold calculateLinearRegression. fold (trendPoints ndviData).
  apply div_finite. intros Hz.
  pose proof (trendPoints_denominator ndviData Hlen) as Hpos.
  rewrite Hz in Hpos. exact (Qlt_irrefl _ Hpos).
Qed.

Lemma calculateNDVITrend_finite (ndviData : list NDVISample) :
  exists slope : Q, calculateNDVITrend ndviData = JsNum.Fin slope.
Proof.
  destruct (Nat.lt_ge_cases (length ndviData) 2) as [Hlt|Hge].
  - exists 0%Q. unfold calculateNDVITrend.
    destruct (Nat.ltb_spec (length ndviData) 2); [reflexivity|lia].
  - eexists. apply calculateNDVITrend_regression. exact Hge.
Qed.

End Trend.

(** C10: for at least two samples the regression runs over the indices
    [0 .. n-1] of the last [min 5 n] samples, its denominator
    [n * sum x^2 - (sum x)^2] is strictly positive, and the slope is the
    finite quotient, neither NaN nor infinite. *)
Theorem calculateNDVITrend_well_defined (ndviData : list NDVISample) :
  (2 <= length ndviData)%nat ->
  let points := AIStressDetector.trendPoints ndviData in
  map fst points
  = map AIStressDetector.ofNat (seq 0 (Nat.min 5 (length ndviData)))
  /\ (0 < AIStressDetector.regressionDenominator points)%Q
  /\ AIStressDetector.calculateNDVITrend ndviData
     = JsNum.Fin (AIStressDetector.regressionNumerator points
                  / AIStressDetector.regressionDenominator points).
Proof.
  intros Hlen points. split; [|split].
  - unfold points, AIStressDetector.trendPoints.
    rewrite mapi_from_xs, sliceLast_length. reflexivity.
  - apply trendPoints_denominator. exact Hlen.
  - apply calculateNDVITrend_regression. exact Hlen.
Qed.

Lemma calculateNDVITrend_well_defined_witness :
  (2 <= length Examples.two_samples)%nat
  /\ (0 < AIStressDetector.regressionDenominator
            (AIStressDetector.trendPoints Examples.two_samples))%Q.
Proof.
  split; [simpl; lia|].
  apply (calculateNDVITrend_well_defined Examples.two_samples). simpl. lia.
Defined.

(** ** The threshold table of the classifier *)

Section Classifier.
Import AIStressDetector.

(** What the block "NDVI-based stress detection" assigns: there is no
    branch for the band from 0.4 to 0.5. *)
Lemma ndviRule_thresholds (v : Q) :
  ((v < 2 # 10)%Q /\ rs_stressLevel (ndviRule v) = "severe")
  \/ ((2 # 10 <= v)%Q /\ (v < 3 # 10)%Q /\ rs_stressLevel (ndviRule v) = "high")
  \/ ((3 # 10 <= v)%Q /\ (v < 4 # 10)%Q /\ rs_stressLevel (ndviRule v) = "moderate")
  \/ ((4 # 10 <= v)%Q /\ rs_stressLevel (ndviRule v) = "healthy").
Proof.
  unfold ndviRule.
  destruct (Qltb v (2 # 10)) eqn:E2.
  { left. apply Qltb_true in E2. auto. }
  apply Qltb_false in E2.
  destruct (Qltb v (3 # 10)) eqn:E3.
  { right; left. apply Qltb_true in E3. auto. }
  apply Qltb_false in E3.
  destruct (Qltb v (4 # 10)) eqn:E4.
  { right; right; left. apply Qltb_true in E4. auto. }
  apply Qltb_false in E4. right; right; right. auto.
Qed.

Lemma ndviRule_levels (v : Q) :
  rs_stressLevel (ndviRule v) ∈ ["healthy"; "moderate"; "high"; "severe"].
Proof.
  destruct (ndviRule_thresholds v) as [[_ ->]|[(_ & _ & ->)|[(_ & _ & ->)|[_ ->]]]];
    set_solver.
Qed.

(** The base level is read off the last element of the array. *)
Lemma baseStressLevel_last (front : list NDVISample) (d : NDVISample) :
  baseStressLevel (front ++ [d])
  = rs_stressLevel (ndviRule (orZero (Some (ndvi d)))).
Proof.
  unfold baseStressLevel, latestNDVI. rewrite last_snoc. reflexivity.
Qed.

(** Samples before the last one have no say in the base level. *)
Lemma baseStressLevel_front_irrelevant (front front' : list NDVISample)
    (d : NDVISample) :
  baseStressLevel (front ++ [d]) = baseStressLevel (front' ++ [d]).
Proof. rewrite !baseStressLevel_last. reflexivity. Qed.

Lemma upgradeStressLevel_table :
  map upgradeStressLevel levels = ["low"; "moderate"; "high"; "severe"; "severe"].
Proof. reflexivity. Qed.

End Classifier.

(** C2: at a steady NDVI of 0.45 (slope 0, no escalation) the classifier
    answers [healthy] where the threshold table of the claim has [low]; the
    forecast loop of the same class classifies the same value as [low]. *)
Theorem low_band_classified_healthy :
  (AIStressDetector.latestNDVI Examples.steady_045 == 45 # 100)%Q
  /\ JsNum.ltb (AIStressDetector.calculateNDVITrend Examples.steady_045)
       (JsNum.Fin (- (5 # 100))) = false
  /\ AIStressDetector.baseStressLevel Examples.steady_045 = "healthy"
  /\ stressLevel (AIStressDetector.analyzeWithRules Examples.steady_045) = "healthy"
  /\ AIStressDetector.forecastStressLevel (JsNum.Fin (45 # 100)) = "low".
Proof. repeat split; vm_compute; reflexivity. Qed.

(** C3: on date-descending input the classifier is driven by the last
    element, the oldest sample: changing the oldest sample changes the base
    level, changing the most recent one does not. *)
Theorem base_level_follows_oldest_sample :
  AIStressDetector.baseStressLevel Examples.healthy_scenario = "healthy"
  /\ AIStressDetector.baseStressLevel Examples.oldest_changed = "severe"
  /\ AIStressDetector.baseStressLevel Examples.newest_changed = "healthy"
  /\ map date Examples.oldest_changed = map date Examples.healthy_scenario
  /\ (ndvi <$> head Examples.oldest_changed) = (ndvi <$> head Examples.healthy_scenario).
Proof. repeat split. Qed.

(** C5, as stated, fails: with the first and the last sample at 0.38 and a
    slope of -0.08 the base level is not [high] and the result not
    [severe]. *)
Lemma scenario_038_not_severe :
  (AIStressDetector.latestNDVI Examples.scenario_038 == 38 # 100)%Q
  /\ (exists slope, AIStressDetector.calculateNDVITrend Examples.scenario_038
                     = JsNum.Fin slope /\ (slope == - (8 # 100))%Q)
  /\ ~ (AIStressDetector.baseStressLevel Examples.scenario_038 = "high"
        /\ stressLevel (AIStressDetector.analyzeWithRules Examples.scenario_038)
           = "severe").
Proof.
  split; [reflexivity|]. split.
  - eexists. split; [vm_compute; reflexivity|reflexivity].
  - intros [H _]. vm_compute in H. discriminate H.
Qed.

(** C5, amended: when the sample the classifier reads has NDVI 0.38 and the
    slope is -0.08, the base level is [moderate] and the escalation raises
    it to [high]. *)
Theorem scenario_038_moderate_to_high (ndviData : list NDVISample) (slope : Q) :
  (AIStressDetector.latestNDVI ndviData == 38 # 100)%Q ->
  AIStressDetector.calculateNDVITrend ndviData = JsNum.Fin slope ->
  (slope == - (8 # 100))%Q ->
  AIStressDetector.baseStressLevel ndviData = "moderate"
  /\ stressLevel (AIStressDetector.analyzeWithRules ndviData) = "high".
Proof.
  intros Hv Htrend Hslope.
  assert (Hbase : AIStressDetector.baseStressLevel ndviData = "moderate").
  { unfold AIStressDetector.baseStressLevel.
    destruct (ndviRule_thresholds (AIStressDetector.latestNDVI ndviData))
      as [[H1 H]|[(H1 & H2 & H)|[(H1 & H2 & H)|[H1 H]]]];
      try exact H; exfalso; lra. }
  split; [exact Hbase|].
  unfold AIStressDetector.analyzeWithRules, AIStressDetector.trendAdjust.
  rewrite Htrend, ltb_Fin.
  assert (Hlt : Qltb slope (- (5 # 100)) = true).
  { apply Qltb_true. rewrite Hslope. reflexivity. }
  rewrite Hlt. simpl.
  unfold AIStressDetector.baseStressLevel in Hbase. rewrite Hbase. reflexivity.
Qed.

Lemma scenario_038_moderate_to_high_witness :
  AIStressDetector.baseStressLevel Examples.scenario_038 = "moderate"
  /\ stressLevel (AIStressDetector.analyzeWithRules Examples.scenario_038) = "high".
Proof.
  eapply (scenario_038_moderate_to_high Examples.scenario_038).
  - reflexivity.
  - vm_compute. reflexivity.
  - reflexivity.
Defined.

(** C6: a slope below -0.05 moves the base level up by one place in
    healthy < low < moderate < high < severe, and severe stays severe; any
    other slope leaves the base level as it is. *)
Theorem trend_escalation (ndviData : list NDVISample) :
  exists slope : Q,
    AIStressDetector.calculateNDVITrend ndviData = JsNum.Fin slope
    /\ let base := AIStressDetector.baseStressLevel ndviData in
       let result := stressLevel (AIStressDetector.analyzeWithRules ndviData) in
       let index := AIStressDetector.indexOf AIStressDetector.levels in
       base ∈ AIStressDetector.levels
       /\ result ∈ AIStressDetector.levels
       /\ ((slope < - (5 # 100))%Q -> index result = Z.min (index base + 1) 4)
       /\ ((- (5 # 100) <= slope)%Q -> result = base)
       /\ AIStressDetector.upgradeStressLevel "severe" = "severe".
Proof.
  destruct (calculateNDVITrend_finite ndviData) as [slope Hs].
  exists slope. split; [exact Hs|].
  unfold AIStressDetector.analyzeWithRules, AIStressDetector.trendAdjust,
    AIStressDetector.baseStressLevel.
  rewrite Hs, ltb_Fin.
  pose proof (ndviRule_levels (AIStressDetector.latestNDVI ndviData)) as Hb.
  destruct (Qltb slope (- (5 # 100))) eqn:E; cbn [stressLevel AIStressDetector.rs_stressLevel].
  - apply Qltb_true in E.
    rewrite !elem_of_cons in Hb.
    destruct Hb as [Hb|[Hb|[Hb|[Hb|Hb]]]]; [..|by apply elem_of_nil in Hb];
      rewrite Hb; (split; [set_solver|]); (split; [vm_compute; set_solver|]);
      (split; [intros _; reflexivity|]); (split; [intros Hge; exfalso; lra|]);
      reflexivity.
  - apply Qltb_false in E.
    assert (Hin : AIStressDetector.rs_stressLevel
                    (AIStressDetector.ndviRule (AIStressDetector.latestNDVI ndviData))
                  ∈ AIStressDetector.levels).
    { rewrite !elem_of_cons in Hb.
      destruct Hb as [Hb|[Hb|[Hb|[Hb|Hb]]]]; [..|by apply elem_of_nil in Hb];
        rewrite Hb; set_solver. }
    split; [exact Hin|]. split; [exact Hin|].
    split; [intros Hlt; exfalso; lra|]. split; reflexivity.
Qed.

(** ** The forecast *)

Section ForecastFacts.
Import AIStressDetector.

Lemma forecastLoop_seqZ (mk : Z -> ForecastPoint) (days : Z) (fuel : nat) :
  forall (i : Z) (acc : list ForecastPoint),
    Z.of_nat fuel = days - i + 1 ->
    forecastLoop fuel mk days i acc = acc ++ map mk (seqZ i (Z.of_nat fuel)).
Proof.
  induction fuel as [|fuel IH]; intros i acc Hfuel.
  - simpl. rewrite app_nil_r. reflexivity.
  - cbn [forecastLoop].
    destruct (Z.leb_spec i days) as [_|Hgt]; [|lia].
    rewrite IH by lia.
    rewrite (seqZ_cons i (Z.of_nat (S fuel))) by lia.
    replace (Z.pred (Z.of_nat (S fuel))) with (Z.of_nat fuel) by lia.
    rewrite <- app_assoc. reflexivity.
Qed.

Lemma generateStressForecast_points (today : Z) (random : Z -> Q)
    (ndviData : list NDVISample) (days : Z) :
  (3 <= length ndviData)%nat -> 0 <= days ->
  exists lastSample,
    last ndviData = Some lastSample
    /\ generateStressForecast today random ndviData days
       = mkForecast
           (map (forecastDay today random (calculateNDVITrend ndviData)
                   (ndvi lastSample) days) (seqZ 1 days))
           1 "linear_regression" (Some (calculateNDVITrend ndviData))
           (Some (ndvi lastSample)).
Proof.
  intros Hlen Hdays. unfold generateStressForecast.
  destruct (Nat.ltb_spec (length ndviData) 3) as [Hlt|_]; [lia|].
  destruct (last ndviData) as [lastSample|] eqn:Hlast.
  - exists lastSample. split; [reflexivity|].
    rewrite forecastLoop_seqZ by lia.
    rewrite Z2Nat.id by lia. reflexivity.
  - apply last_None in Hlast. subst ndviData. simpl in Hlen. lia.
Qed.

Lemma day_fraction_lt (i j days : Z) :
  0 < days -> i < j ->
  (inject_Z i / inject_Z days < inject_Z j / inject_Z days)%Q.
Proof.
  intros Hdays Hij. unfold Qdiv. apply Qmult_lt_compat_r.
  - apply Qinv_lt_0_compat. change 0%Q with (inject_Z 0).
    rewrite <- Zlt_Qlt. exact Hdays.
  - rewrite <- Zlt_Qlt. exact Hij.
Qed.

Lemma day_fraction_le_1 (j days : Z) :
  0 < days -> j <= days -> (inject_Z j / inject_Z days <= 1)%Q.
Proof.
  intros Hdays Hj. apply Qle_shift_div_r.
  - change 0%Q with (inject_Z 0). rewrite <- Zlt_Qlt. exact Hdays.
  - rewrite Qmult_1_l. rewrite <- Zle_Qle. exact Hj.
Qed.

(** Within the horizon the lower bound [0.5] is never the larger
    operand. *)
Lemma dayConfidence_linear (i days : Z) :
  0 < days -> i <= days ->
  (dayConfidence i days == (9 # 10) - (inject_Z i / inject_Z days) * (4 # 10))%Q.
Proof.
  intros Hdays Hi. unfold dayConfidence. apply Q.max_r.
  pose proof (day_fraction_le_1 i days Hdays Hi) as Hle. lra.
Qed.

Lemma dayConfidence_decreasing (i j days : Z) :
  0 < days -> i < j -> j <= days ->
  (dayConfidence j days < dayConfidence i days)%Q.
Proof.
  intros Hdays Hij Hj.
  rewrite (dayConfidence_linear i days), (dayConfidence_linear j days) by lia.
  pose proof (day_fraction_lt i j days Hdays Hij) as Hlt. lra.
Qed.

End ForecastFacts.

(** C7: with fewer than three samples the forecast is empty and tagged
    [insufficient_data], whatever the horizon. *)
Theorem forecast_insufficient_data (today : Z) (random : Z -> Q)
    (ndviData : list NDVISample) (days : Z) :
  (length ndviData < 3)%nat ->
  let r := AIStressDetector.generateStressForecast today random ndviData days in
  forecast r = [] /\ method r = "insufficient_data".
Proof.
  intros Hlen. unfold AIStressDetector.generateStressForecast.
  destruct (Nat.ltb_spec (length ndviData) 3) as [_|Hge]; [|lia].
  split; reflexivity.
Qed.

Lemma forecast_insufficient_data_witness :
  (length Examples.two_samples < 3)%nat
  /\ forecast (AIStressDetector.generateStressForecast 0 (fun _ => 1 # 2)
                 Examples.two_samples 14) = [].
Proof.
  split; [simpl; lia|].
  apply (forecast_insufficient_data 0 (fun _ => 1 # 2) Examples.two_samples 14).
  simpl. lia.
Defined.

(** C8: with at least three samples and a horizon of [days >= 1] the
    forecast has [days] points, the point of day [i] carries the confidence
    [max(0.5, 0.9 - (i/days) * 0.4)], and the confidence strictly decreases
    with [i]. *)
Theorem forecast_confidence_decreasing (today : Z) (random : Z -> Q)
    (ndviData : list NDVISample) (days : Z) :
  (3 <= length ndviData)%nat -> 1 <= days ->
  let r := AIStressDetector.generateStressForecast today random ndviData days in
  length (forecast r) = Z.to_nat days
  /\ (forall i, 1 <= i <= days ->
        exists p, forecast r !! Z.to_nat (i - 1) = Some p
                  /\ fp_date p = today + i
                  /\ (fp_confidence p
                      == Qmax (5 # 10)
                           ((9 # 10) - (inject_Z i / inject_Z days) * (4 # 10)))%Q)
  /\ (forall i j p q, 1 <= i -> i < j -> j <= days ->
        forecast r !! Z.to_nat (i - 1) = Some p ->
        forecast r !! Z.to_nat (j - 1) = Some q ->
        (fp_confidence q < fp_confidence p)%Q).
Proof.
  intros Hlen Hdays r.
  destruct (generateStressForecast_points today random ndviData days Hlen)
    as (lastSample & _ & Hr); [lia|].
  subst r. rewrite Hr. cbn [forecast]. clear Hr.
  set (mk := AIStressDetector.forecastDay today random _ _ days).
  assert (Hlookup : forall i, 1 <= i <= days ->
            map mk (seqZ 1 days) !! Z.to_nat (i - 1) = Some (mk i)).
  { intros i Hi. rewrite list_lookup_fmap, lookup_seqZ_lt by lia.
    simpl. f_equal. f_equal. lia. }
  split; [|split].
  - rewrite length_map, length_seqZ. reflexivity.
  - intros i Hi. exists (mk i). split; [apply Hlookup; exact Hi|].
    split; reflexivity.
  - intros i j p q Hi Hij Hj Hp Hq.
    rewrite Hlookup in Hp by lia. rewrite Hlookup in Hq by lia.
    inversion Hp; inversion Hq; subst p q. cbn [mk AIStressDetector.forecastDay fp_confidence].
    apply dayConfidence_decreasing; lia.
Qed.

Lemma forecast_confidence_decreasing_witness :
  (3 <= length Examples.steady_045)%nat /\ 1 <= 14
  /\ length (forecast (AIStressDetector.generateStressForecast 0 (fun _ => 1 # 2)
                         Examples.steady_045 14)) = Z.to_nat 14.
Proof.
  split; [simpl; lia|]. split; [lia|].
  apply (forecast_confidence_decreasing 0 (fun _ => 1 # 2) Examples.steady_045 14);
    [simpl; lia|lia].
Defined.

(** ** The orchestrator *)

Section Orchestrator.
Import AlertService.

Lemma shouldSendAlert_true_iff (cache : gmap Key CacheEntry) (now : Z)
    (farmId : Key) (analysis : Analysis) :
  shouldSendAlert cache now farmId analysis = true
  <-> stressLevel analysis <> "healthy"
      /\ stressLevel analysis <> "low"
      /\ (7 # 10 <= confidence analysis)%Q
      /\ (forall la, cache !! farmId = Some la ->
            alertCooldown <= now - timestamp la).
Proof.
  unfold shouldSendAlert.
  destruct (String.eqb_spec (stressLevel analysis) "healthy") as [Hh|Hh];
    [simpl; split; [discriminate|intros (H & _); contradiction]|].
  destruct (String.eqb_spec (stressLevel analysis) "low") as [Hl|Hl];
    [simpl; split; [discriminate|intros (_ & H & _); contradiction]|].
  cbn [orb].
  destruct (cache !! farmId) as [la|].
  - destruct (Z.ltb_spec (now - timestamp la) alertCooldown) as [Hlt|Hge].
    + split; [discriminate|]. intros (_ & _ & _ & H).
      specialize (H la eq_refl). lia.
    + destruct (Qltb (confidence analysis) (7 # 10)) eqn:E.
      * apply Qltb_true in E. split; [discriminate|].
        intros (_ & _ & H & _). exfalso. exact (Qle_not_lt _ _ H E).
      * apply Qltb_false in E. split; [|reflexivity]. intros _.
        repeat split; try assumption. intros la' Hla. congruence.
  - destruct (Qltb (confidence analysis) (7 # 10)) eqn:E.
    + apply Qltb_true in E. split; [discriminate|].
      intros (_ & _ & H & _). exfalso. exact (Qle_not_lt _ _ H E).
    + apply Qltb_false in E. split; [|reflexivity]. intros _.
      repeat split; try assumption. intros la' Hla. discriminate Hla.
Qed.

(** [sendAlert] hands at most one request to the gateway and touches the
    cache only. *)
Lemma sendAlert_effects (env : Env) (st : State) (farmer : User) (fm : Farm)
    (analysis : Analysis) :
  let out := sendAlert env st farmer fm analysis in
  db_alerts out.2 = db_alerts st
  /\ db_ndvi out.2 = db_ndvi st
  /\ db_farms out.2 = db_farms st
  /\ (outbox out.2 = outbox st
      \/ exists request, outbox out.2 = outbox st ++ [request]).
Proof.
  unfold sendAlert.
  destruct (phoneNumber farmer) as [raw|]; [|simpl; auto].
  destruct (SMSService.formatPhoneNumber raw) as [phone|]; [|simpl; auto].
  destruct (smsAccepted env); simpl; repeat split; right; eexists; reflexivity.
Qed.

(** An accepted request is cached under the [_id] of the farm document,
    and from then on the guard refuses that key for 24 hours. *)
Lemma sendAlert_caches_under_farm_id (env : Env) (st : State) (farmer : User)
    (fm : Farm) (analysis next : Analysis) (raw phone : string) (now : Z) :
  phoneNumber farmer = Some raw ->
  SMSService.formatPhoneNumber raw = Some phone ->
  smsAccepted env = true ->
  now - nowSend env < alertCooldown ->
  let cache := stressCache (sendAlert env st farmer fm analysis).2 in
  (timestamp <$> cache !! farm_id fm) = Some (nowSend env)
  /\ shouldSendAlert cache now (farm_id fm) next = false.
Proof.
  intros Hraw Hphone Hsms Hnow. unfold sendAlert.
  rewrite Hraw, Hphone, Hsms. cbn [snd stressCache].
  split; [rewrite lookup_insert_eq; reflexivity|].
  destruct (shouldSendAlert _ _ _ _) eqn:Hguard; [|reflexivity].
  apply shouldSendAlert_true_iff in Hguard.
  destruct Hguard as (_ & _ & _ & Hcache).
  specialize (Hcache _ (lookup_insert_eq _ _ _)). cbn [timestamp] in Hcache. lia.
Qed.

Lemma storeAlertRecord_without_documents (env : Env) (st : State)
    (farmId : Key) (analysis : Analysis) (alertResult : SendResult) :
  storeAlertRecord env st farmId analysis alertResult None None = (None, st).
Proof. reflexivity. Qed.

(** Whatever the call, the Alert collection is the same afterwards. *)
Lemma analyzeFarmAndAlert_alerts_unchanged (env : Env) (st : State)
    (farmId : Key) :
  db_alerts (analyzeFarmAndAlert env st farmId).2 = db_alerts st.
Proof.
  unfold analyzeFarmAndAlert.
  destruct (db_farms st !! farmId) as [fm|]; [|reflexivity].
  destruct (farm_isActive fm); [|reflexivity]. cbn [negb].
  destruct (db_users st !! owner fm) as [farmOwner|]; [|reflexivity].
  destruct (user_isActive farmOwner); [|reflexivity]. cbn [negb].
  destruct (length (findNDVIData (db_ndvi st) farmId) <? 3)%nat; [reflexivity|].
  destruct (shouldSendAlert _ _ _ _); [|reflexivity].
  match goal with
  | |- context [sendAlert ?e ?s ?u ?f ?a] =>
      pose proof (sendAlert_effects e s u f a) as (Ha & _);
      destruct (sendAlert e s u f a) as [alertResult st2]
  end.
  rewrite storeAlertRecord_without_documents. exact Ha.
Qed.

Lemma insertByDateDesc_length (d : NDVISample) (sorted : list NDVISample) :
  length (insertByDateDesc d sorted) = S (length sorted).
Proof.
  induction sorted as [|e rest IH]; simpl; [reflexivity|].
  destruct (date e <? date d)%Z; simpl; [reflexivity|]. rewrite IH. reflexivity.
Qed.

Lemma sortByDateDesc_length (docs : list NDVISample) :
  length (sortByDateDesc docs) = length docs.
Proof.
  unfold sortByDateDesc.
  induction docs as [|d rest IH]; simpl; [reflexivity|].
  rewrite insertByDateDesc_length, IH. reflexivity.
Qed.

Lemma findNDVIData_length (store : list NDVISample) (farmId : Key) :
  length (findNDVIData store farmId)
  = Nat.min 30 (length (filter (fun d => farm d = farmId) store)).
Proof.
  unfold findNDVIData. rewrite length_take, sortByDateDesc_length. reflexivity.
Qed.

End Orchestrator.

(** C1: a farm with [high] stress, confidence 0.8 and nothing cached passes
    the guard; the call sends one request to the gateway and reports the
    alert as sent, and the Alert collection is still empty when it
    returns. *)
Theorem alert_record_not_persisted :
  let st := Examples.stateWith Examples.high_stress in
  let out := AlertService.analyzeFarmAndAlert (Examples.envAt Examples.t0) st "farm1" in
  let analysis := AIStressDetector.analyzeWithRules Examples.high_stress in
  AlertService.shouldSendAlert (stressCache st) Examples.t0 "farm1" analysis = true
  /\ (exists fc, out.1 = AlertedResult analysis fc true (Some "sid-1"))
  /\ length (outbox out.2) = 1%nat
  /\ db_alerts out.2 = [].
Proof.
  repeat split; try (vm_compute; reflexivity).
  eexists. vm_compute. reflexivity.
Qed.

(** Handed the farm and its owner, [storeAlertRecord] saves one record for
    a [high] alert. *)
Lemma storeAlertRecord_given_documents :
  let st := Examples.stateWith Examples.high_stress in
  let analysis := AIStressDetector.analyzeWithRules Examples.high_stress in
  let out :=
    AlertService.storeAlertRecord (Examples.envAt Examples.t0) st "farm1" analysis
      (mkSendResult true (Some "sid-1") None)
      (Some Examples.farm1) (Some Examples.user1) in
  length (db_alerts out.2) = 1%nat
  /\ (al_stressLevel <$> out.1) = Some "high".
Proof. split; vm_compute; reflexivity. Qed.

(** The urgency of a [severe] or [moderate] alert is not among the values
    the Alert schema accepts. *)
Lemma urgency_outside_schema :
  let st := Examples.stateWith Examples.severe_stress in
  let analysis := AIStressDetector.analyzeWithRules Examples.severe_stress in
  AlertService.getUrgencyLevel "severe" = "urgent"
  /\ AlertService.getUrgencyLevel "moderate" = "normal"
  /\ AlertService.storeAlertRecord (Examples.envAt Examples.t0) st "farm1" analysis
       (mkSendResult true (Some "sid-1") None)
       (Some Examples.farm1) (Some Examples.user1) = (None, st).
Proof. repeat split. Qed.

Lemma append_length (s1 s2 : string) :
  String.length (s1 +:+ s2) = (String.length s1 + String.length s2)%nat.
Proof.
  induction s1 as [|c s1 IH]; [reflexivity|].
  change (String c s1 +:+ s2) with (String c (s1 +:+ s2)).
  cbn [String.length]. rewrite IH. reflexivity.
Qed.

(** The key of a document's ObjectId object is not an id. *)
Lemma objectKey_not_id (hex : string) : objectKey hex <> hex.
Proof.
  intros Heq. apply (f_equal String.length) in Heq.
  unfold objectKey in Heq. rewrite !append_length in Heq.
  cbn [String.length] in Heq. lia.
Qed.

(** The sender writes the cache under the [_id] of the document and
    nowhere else. *)
Lemma sendAlert_cache_elsewhere (env : Env) (st : State) (farmer : User)
    (fm : Farm) (analysis : Analysis) (key : Key) :
  farm_id fm <> key ->
  stressCache (AlertService.sendAlert env st farmer fm analysis).2 !! key
  = stressCache st !! key.
Proof.
  intros Hkey. unfold AlertService.sendAlert.
  destruct (phoneNumber farmer) as [raw|]; [|reflexivity].
  destruct (SMSService.formatPhoneNumber raw) as [phone|]; [|reflexivity].
  destruct (smsAccepted env); [|reflexivity].
  cbn [snd stressCache]. rewrite lookup_insert_ne by exact Hkey. reflexivity.
Qed.

(** The guard reads the cache under the id the call was given, the sender
    writes it under the [_id] of the document: when the two are different
    keys, the call leaves the cache under its id as it found it. *)
Lemma analyzeFarmAndAlert_cache_under_id (env : Env) (st : State)
    (farmId : Key) (fm : Farm) :
  db_farms st !! farmId = Some fm ->
  farm_id fm <> farmId ->
  stressCache (AlertService.analyzeFarmAndAlert env st farmId).2 !! farmId
  = stressCache st !! farmId.
Proof.
  intros Hfarm Hkey. unfold AlertService.analyzeFarmAndAlert. rewrite Hfarm.
  destruct (farm_isActive fm); [|reflexivity]. cbn [negb].
  destruct (db_users st !! owner fm) as [farmOwner|]; [|reflexivity].
  destruct (user_isActive farmOwner); [|reflexivity]. cbn [negb].
  destruct (length (AlertService.findNDVIData (db_ndvi st) farmId) <? 3)%nat;
    [reflexivity|].
  destruct (AlertService.shouldSendAlert _ _ _ _); [|reflexivity].
  match goal with
  | |- context [AlertService.sendAlert ?e ?s ?u ?f ?a] =>
      pose proof (sendAlert_cache_elsewhere e s u f a farmId Hkey) as Hcache;
      destruct (AlertService.sendAlert e s u f a) as [alertResult st2]
  end.
  rewrite storeAlertRecord_without_documents. cbn [fst snd] in *.
  exact Hcache.
Qed.

(** C4: the claim holds of no second alert within the cooldown, the code
    sends one.  The farm of [RouteExamples] is analysed through the route
    at [t0] and again one hour later, with the same three samples at 0.25.
    The first call sends an alert for [high] stress and caches it under the
    [_id] of the document; the guard of the second call looks under the id
    of the route, finds nothing, and a second alert for the same [high]
    stress goes out within the 24 hours. *)
Theorem second_alert_within_cooldown :
  let first := RouteExamples.afterFirstCall in
  let second := RouteExamples.afterSecondCall in
  Examples.oneHour < AlertService.alertCooldown
  /\ (exists analysis fc,
        first.1 = AlertedResult analysis fc true (Some "sid-1")
        /\ stressLevel analysis = "high")
  /\ (timestamp <$> stressCache first.2 !! farm_id RouteExamples.storedFarm)
     = Some Examples.t0
  /\ stressCache first.2 !! RouteExamples.farmHex = None
  /\ (exists analysis fc,
        second.1 = AlertedResult analysis fc true (Some "sid-1")
        /\ stressLevel analysis = "high")
  /\ length (outbox first.2) = 1%nat
  /\ length (outbox second.2) = 2%nat.
Proof.
  split_and!; try (vm_compute; reflexivity).
  - do 2 eexists. split; [vm_compute; reflexivity|vm_compute; reflexivity].
  - do 2 eexists. split; [vm_compute; reflexivity|vm_compute; reflexivity].
Qed.

(** X29: a call that sends a request sends exactly one, and then the
    level is neither [healthy] nor [low], the confidence is at least 0.7,
    and an entry the guard finds in the cache under the id of the call is
    at least 24 hours old. *)
Theorem alert_guard (env : Env) (st : State) (farmId : Key) :
  let out := AlertService.analyzeFarmAndAlert env st farmId in
  (length (outbox st) < length (outbox out.2))%nat ->
  exists analysis fc sent id,
    out.1 = AlertedResult analysis fc sent id
    /\ stressLevel analysis <> "healthy"
    /\ stressLevel analysis <> "low"
    /\ (7 # 10 <= confidence analysis)%Q
    /\ (forall la, stressCache st !! farmId = Some la ->
          AlertService.alertCooldown <= nowGuard env - timestamp la)
    /\ length (outbox out.2) = S (length (outbox st)).
Proof.
  unfold AlertService.analyzeFarmAndAlert.
  destruct (db_farms st !! farmId) as [fm|]; [|simpl; lia].
  destruct (farm_isActive fm); [|simpl; lia]. cbn [negb].
  destruct (db_users st !! owner fm) as [farmOwner|]; [|simpl; lia].
  destruct (user_isActive farmOwner); [|simpl; lia]. cbn [negb].
  destruct (length (AlertService.findNDVIData (db_ndvi st) farmId) <? 3)%nat;
    [simpl; lia|].
  set (analysis := AIStressDetector.detectCropStress _ _).
  set (fc := AIStressDetector.generateStressForecast _ _ _ _).
  destruct (AlertService.shouldSendAlert _ _ _ _) eqn:Hguard; [|simpl; lia].
  apply shouldSendAlert_true_iff in Hguard.
  destruct Hguard as (Hh & Hl & Hc & Hcache).
  match goal with
  | |- context [AlertService.sendAlert ?e ?s ?u ?f ?a] =>
      pose proof (sendAlert_effects e s u f a) as (_ & _ & _ & Hout);
      destruct (AlertService.sendAlert e s u f a) as [alertResult st2]
  end.
  rewrite storeAlertRecord_without_documents. cbn [fst snd] in *.
  intros Hgrow.
  exists analysis, fc, (sr_success alertResult), (sr_messageId alertResult).
  repeat split; try assumption.
  destruct Hout as [Hout|[request Hout]]; rewrite Hout in *.
  - cbn [AlertService.storeAnalysisResults outbox] in Hgrow. lia.
  - rewrite length_app. simpl. lia.
Qed.

Lemma alert_guard_witness :
  let st := Examples.stateWith Examples.high_stress in
  let out := AlertService.analyzeFarmAndAlert (Examples.envAt Examples.t0) st "farm1" in
  (length (outbox st) < length (outbox out.2))%nat
  /\ length (outbox out.2) = S (length (outbox st)).
Proof.
  split; [vm_compute; lia|].
  destruct (alert_guard (Examples.envAt Examples.t0)
              (Examples.stateWith Examples.high_stress) "farm1")
    as (analysis & fc & sent & id & _ & _ & _ & _ & _ & Hlen).
  - vm_compute. lia.
  - exact Hlen.
Defined.

(** C9: when the farm or its owner is missing or inactive, or fewer than
    three NDVI documents are stored for the farm, the call returns a failure
    whose message names a reason that holds, and the state, with its Alert
    and NDVI collections, its farms, its cache and its sent requests, is
    the one the call started from. *)
Theorem fail_fast (env : Env) (st : State) (farmId : Key) :
  Spec.farmUnresolved st farmId \/ Spec.ownerUnresolved st farmId
  \/ Spec.fewSamples st farmId ->
  exists error,
    AlertService.analyzeFarmAndAlert env st farmId = (Failed error, st)
    /\ ((error = "Farm not found or inactive" /\ Spec.farmUnresolved st farmId)
        \/ (error = "Farm owner not found or inactive"
            /\ Spec.ownerUnresolved st farmId)
        \/ (error = "Insufficient NDVI data for analysis"
            /\ Spec.fewSamples st farmId)).
Proof.
  unfold Spec.farmUnresolved, Spec.ownerUnresolved, Spec.fewSamples,
    AlertService.analyzeFarmAndAlert.
  intros Hreason.
  destruct (db_farms st !! farmId) as [fm|]; [|eexists; split; [reflexivity|auto]].
  destruct (farm_isActive fm); cbn [negb];
    [|eexists; split; [reflexivity|auto]].
  destruct (db_users st !! owner fm) as [farmOwner|];
    [|eexists; split; [reflexivity|auto]].
  destruct (user_isActive farmOwner); cbn [negb];
    [|eexists; split; [reflexivity|auto]].
  destruct Hreason as [H|[H|Hfew]]; try discriminate H.
  rewrite findNDVIData_length.
  destruct (Nat.ltb_spec
              (Nat.min 30 (length (filter (fun d => farm d = farmId) (db_ndvi st)))) 3)
    as [_|Hge]; [|lia].
  eexists; split; [reflexivity|auto].
Qed.

Lemma fail_fast_witness :
  let st := Examples.stateWith Examples.two_samples in
  Spec.fewSamples st "farm1"
  /\ exists error,
       AlertService.analyzeFarmAndAlert (Examples.envAt Examples.t0) st "farm1"
       = (Failed error, st).
Proof.
  split; [vm_compute; lia|].
  destruct (fail_fast (Examples.envAt Examples.t0)
              (Examples.stateWith Examples.two_samples) "farm1")
    as (error & Hfail & _).
  - right; right. vm_compute. lia.
  - exists error. exact Hfail.
Defined.

(** * Further properties of the modelled code *)

(** ** The regression *)

Section RegressionFacts.
Import AIStressDetector.

Lemma sliceLast_short {A} (k : nat) (arr : list A) :
  (length arr <= k)%nat -> sliceLast k arr = arr.
Proof.
  intros Hlen. unfold sliceLast.
  replace (length arr - k)%nat with 0%nat by lia. reflexivity.
Qed.

Lemma sliceLast_app {A} (front tail : list A) :
  sliceLast (length tail) (front ++ tail) = tail.
Proof.
  unfold sliceLast. rewrite length_app.
  replace (length front + length tail - length tail)%nat with (length front) by lia.
  apply drop_app_length.
Qed.

End RegressionFacts.

(** X3: only the last five elements of the array enter the trend. *)
Theorem trend_reads_last_five (front tail : list NDVISample) :
  length tail = 5%nat ->
  AIStressDetector.calculateNDVITrend (front ++ tail)
  = AIStressDetector.calculateNDVITrend tail.
Proof.
  intros Htail.
  assert (Hs : AIStressDetector.sliceLast 5 (front ++ tail) = tail)
    by (rewrite <- Htail; apply sliceLast_app).
  assert (Hs' : AIStressDetector.sliceLast 5 tail = tail)
    by (apply sliceLast_short; lia).
  unfold AIStressDetector.calculateNDVITrend.
  rewrite Hs, Hs', length_app, Htail.
  destruct (Nat.ltb_spec (length front + 5) 2) as [H|_]; [lia|]. reflexivity.
Qed.

Lemma trend_reads_last_five_witness :
  AIStressDetector.calculateNDVITrend
    (MoreExamples.older_samples ++ MoreExamples.five_samples)
  = AIStressDetector.calculateNDVITrend MoreExamples.five_samples.
Proof.
  apply (trend_reads_last_five MoreExamples.older_samples MoreExamples.five_samples).
  reflexivity.
Defined.

(** ** The rule-based classifier *)

Section RuleFacts.
Import AIStressDetector.

Lemma analyzeWithRules_level (ndviData : list NDVISample) :
  stressLevel (analyzeWithRules ndviData) ∈ levels.
Proof.
  unfold analyzeWithRules, trendAdjust.
  pose proof (ndviRule_levels (latestNDVI ndviData)) as Hb.
  destruct (JsNum.ltb _ _); cbn [stressLevel rs_stressLevel];
    rewrite !elem_of_cons in Hb;
    destruct Hb as [Hb|[Hb|[Hb|[Hb|Hb]]]]; try (by apply elem_of_nil in Hb);
    rewrite Hb; vm_compute; set_solver.
Qed.

Lemma analyzeWithRules_confidence (ndviData : list NDVISample) :
  confidence (analyzeWithRules ndviData)
  = rs_confidence (ndviRule (latestNDVI ndviData)).
Proof.
  unfold analyzeWithRules, trendAdjust.
  destruct (JsNum.ltb _ _); reflexivity.
Qed.

Lemma ndviRule_confidence (v : Q) :
  rs_confidence (ndviRule v) ∈ [7 # 10; 8 # 10; 9 # 10].
Proof.
  unfold ndviRule.
  destruct (Qltb v (2 # 10)); [set_solver|].
  destruct (Qltb v (3 # 10)); [set_solver|].
  destruct (Qltb v (4 # 10)); set_solver.
Qed.

End RuleFacts.

(** X4: a larger NDVI never gives a more severe base level. *)
Theorem base_level_monotone (v1 v2 : Q) :
  (v1 <= v2)%Q ->
  AIStressDetector.indexOf AIStressDetector.levels
    (AIStressDetector.rs_stressLevel (AIStressDetector.ndviRule v2))
  <= AIStressDetector.indexOf AIStressDetector.levels
       (AIStressDetector.rs_stressLevel (AIStressDetector.ndviRule v1)).
Proof.
  intros Hle.
  destruct (ndviRule_thresholds v1)
    as [[A1 ->]|[(A1 & A2 & ->)|[(A1 & A2 & ->)|[A1 ->]]]];
  destruct (ndviRule_thresholds v2)
    as [[B1 ->]|[(B1 & B2 & ->)|[(B1 & B2 & ->)|[B1 ->]]]];
  try (vm_compute; discriminate); exfalso; lra.
Qed.

Lemma base_level_monotone_witness :
  AIStressDetector.indexOf AIStressDetector.levels
    (AIStressDetector.rs_stressLevel (AIStressDetector.ndviRule (35 # 100)))
  <= AIStressDetector.indexOf AIStressDetector.levels
       (AIStressDetector.rs_stressLevel (AIStressDetector.ndviRule (25 # 100))).
Proof.
  apply (base_level_monotone (25 # 100) (35 # 100)). vm_compute. discriminate.
Defined.

(** X5: with a slope below -0.05 the rule-based level is never [healthy],
    the note on the declining trend is the last recommendation, and the
    confidence is still the one of the NDVI band. *)
Theorem declining_trend_never_healthy (ndviData : list NDVISample) (slope : Q) :
  AIStressDetector.calculateNDVITrend ndviData = JsNum.Fin slope ->
  (slope < - (5 # 100))%Q ->
  let r := AIStressDetector.analyzeWithRules ndviData in
  stressLevel r <> "healthy"
  /\ last (recommendations r) = Some "Declining health trend detected"
  /\ confidence r
     = AIStressDetector.rs_confidence
         (AIStressDetector.ndviRule (AIStressDetector.latestNDVI ndviData)).
Proof.
  intros Htrend Hslope r. subst r.
  split; [|split; [|apply analyzeWithRules_confidence]];
    unfold AIStressDetector.analyzeWithRules, AIStressDetector.trendAdjust;
    rewrite Htrend, ltb_Fin;
    (assert (Hlt : Qltb slope (- (5 # 100)) = true) by (apply Qltb_true; exact Hslope));
    rewrite Hlt; cbn [stressLevel recommendations AIStressDetector.rs_stressLevel].
  - pose proof (ndviRule_levels (AIStressDetector.latestNDVI ndviData)) as Hb.
    rewrite !elem_of_cons in Hb.
    destruct Hb as [Hb|[Hb|[Hb|[Hb|Hb]]]]; try (by apply elem_of_nil in Hb);
      rewrite Hb; vm_compute; discriminate.
  - apply last_snoc.
Qed.

Lemma declining_trend_never_healthy_witness :
  stressLevel (AIStressDetector.analyzeWithRules MoreExamples.declining_line)
  <> "healthy".
Proof.
  eapply (declining_trend_never_healthy MoreExamples.declining_line).
  - vm_compute. reflexivity.
  - vm_compute. reflexivity.
Defined.

(** X6: the confidence of a rule-based analysis is 0.7, 0.8 or 0.9, so the
    guard lets it pass exactly when its level is [moderate], [high] or
    [severe] and no alert under the farm id is younger than 24 hours. *)
Theorem rule_based_alert_guard (ndviData : list NDVISample)
    (cache : gmap Key CacheEntry) (now : Z) (farmId : Key) :
  let a := AIStressDetector.analyzeWithRules ndviData in
  confidence a ∈ [7 # 10; 8 # 10; 9 # 10]
  /\ (AlertService.shouldSendAlert cache now farmId a = true
      <-> stressLevel a ∈ ["moderate"; "high"; "severe"]
          /\ (forall la, cache !! farmId = Some la ->
                AlertService.alertCooldown <= now - timestamp la)).
Proof.
  intros a.
  assert (Hconf : confidence a ∈ [7 # 10; 8 # 10; 9 # 10]).
  { unfold a. rewrite analyzeWithRules_confidence. apply ndviRule_confidence. }
  split; [exact Hconf|].
  rewrite shouldSendAlert_true_iff.
  pose proof (analyzeWithRules_level ndviData) as Hlevel. fold a in Hlevel.
  assert (Hge : (7 # 10 <= confidence a)%Q).
  { rewrite !elem_of_cons in Hconf.
    destruct Hconf as [->|[->|[->|H]]]; try (by apply elem_of_nil in H);
      vm_compute; discriminate. }
  unfold AIStressDetector.levels in Hlevel. rewrite !elem_of_cons in Hlevel.
  split.
  - intros (Hh & Hl & _ & Hcache). split; [|exact Hcache].
    destruct Hlevel as [H|[H|[H|[H|[H|H]]]]]; try contradiction;
      try (by apply elem_of_nil in H); rewrite H, !elem_of_cons; auto.
  - intros (Hin & Hcache). repeat split; try assumption;
      intros Heq; rewrite Heq, !elem_of_cons in Hin;
      destruct Hin as [H|[H|[H|H]]]; try discriminate H;
      by apply elem_of_nil in H.
Qed.

(** ** The forecast, continued *)

Section ForecastRange.
Import AIStressDetector.

Lemma forecastLoop_elements (mk : Z -> ForecastPoint) (days : Z) (fuel : nat) :
  forall (i : Z) (acc : list ForecastPoint) (p : ForecastPoint),
    p ∈ forecastLoop fuel mk days i acc ->
    p ∈ acc \/ exists j, i <= j <= days /\ p = mk j.
Proof.
  induction fuel as [|fuel IH]; intros i acc p Hp; cbn [forecastLoop] in Hp.
  - left. exact Hp.
  - destruct (Z.leb_spec i days) as [Hle|Hgt]; [|left; exact Hp].
    apply IH in Hp. destruct Hp as [Hp|(j & Hj & ->)].
    + apply elem_of_app in Hp. destruct Hp as [Hp|Hp]; [left; exact Hp|].
      apply list_elem_of_singleton in Hp. right. exists i. split; [lia|exact Hp].
    + right. exists j. split; [lia|reflexivity].
Qed.

Lemma clamp_unit (x : Q) : (0 <= Qmax 0 (Qmin 1 x) <= 1)%Q.
Proof.
  split; [apply Q.le_max_l|].
  apply Q.max_lub; [discriminate|apply Q.le_min_l].
Qed.

Lemma forecastStressLevel_levels (x : JsNum.t) : forecastStressLevel x ∈ levels.
Proof.
  unfold forecastStressLevel, levels.
  repeat (destruct (JsNum.ltb x _); [rewrite !elem_of_cons; auto 10|]).
  rewrite !elem_of_cons; auto 10.
Qed.

Lemma dayConfidence_range (i days : Z) :
  1 <= i -> i <= days ->
  (5 # 10 <= dayConfidence i days)%Q /\ (dayConfidence i days < 9 # 10)%Q.
Proof.
  intros Hi Hdays. split; [apply Q.le_max_l|].
  rewrite dayConfidence_linear by lia.
  pose proof (day_fraction_lt 0 i days ltac:(lia) ltac:(lia)) as Hpos.
  unfold Qdiv in Hpos at 1. rewrite Qmult_0_l in Hpos. lra.
Qed.

Lemma dayConfidence_last (days : Z) :
  1 <= days -> (dayConfidence days days == 5 # 10)%Q.
Proof.
  intros Hdays. rewrite dayConfidence_linear by lia.
  assert (H1 : (inject_Z days / inject_Z days == 1)%Q).
  { apply Qmult_inv_r. intros Hz.
    assert (Hlt : (inject_Z 0 < inject_Z days)%Q) by (rewrite <- Zlt_Qlt; lia).
    rewrite Hz in Hlt. exact (Qlt_irrefl _ Hlt). }
  rewrite H1. reflexivity.
Qed.

End ForecastRange.

(** X7: with at least three samples every forecast point carries a finite
    predicted NDVI between 0 and 1, whatever the random source returns, and
    one of the five levels. *)
Theorem forecast_values_clamped (today : Z) (random : Z -> Q)
    (ndviData : list NDVISample) (days : Z) (p : ForecastPoint) :
  (3 <= length ndviData)%nat ->
  p ∈ forecast (AIStressDetector.generateStressForecast today random ndviData days) ->
  exists v, predictedNDVI p = JsNum.Fin v
            /\ (0 <= v <= 1)%Q
            /\ fp_stressLevel p ∈ AIStressDetector.levels.
Proof.
  intros Hlen Hp. unfold AIStressDetector.generateStressForecast in Hp.
  destruct (Nat.ltb_spec (length ndviData) 3) as [Hlt|_]; [lia|].
  destruct (last ndviData) as [lastSample|]; [|by apply elem_of_nil in Hp].
  cbn [forecast] in Hp. apply forecastLoop_elements in Hp.
  destruct Hp as [Hp|(j & _ & ->)]; [by apply elem_of_nil in Hp|].
  destruct (calculateNDVITrend_finite ndviData) as [slope ->].
  unfold AIStressDetector.forecastDay. cbn [predictedNDVI fp_stressLevel JsNum.scale JsNum.add JsNum.clamp].
  eexists. split; [reflexivity|]. split; [apply clamp_unit|].
  apply forecastStressLevel_levels.
Qed.

Lemma forecast_values_clamped_witness :
  exists v,
    predictedNDVI MoreExamples.first_forecast_day = JsNum.Fin v
    /\ (0 <= v <= 1)%Q.
Proof.
  destruct (forecast_values_clamped 0 (fun _ => 1 # 2) Examples.steady_045 14
              MoreExamples.first_forecast_day)
    as (v & Hv & Hrange & _).
  - simpl. lia.
  - vm_compute. apply list_elem_of_here.
  - exists v. split; [exact Hv|exact Hrange].
Defined.

(** X8: within a horizon of [days >= 1] every confidence lies between 0.5
    and 0.9, 0.9 excluded, and the last day has exactly 0.5. *)
Theorem forecast_confidence_range (today : Z) (random : Z -> Q)
    (ndviData : list NDVISample) (days : Z) :
  (3 <= length ndviData)%nat -> 1 <= days ->
  let r := AIStressDetector.generateStressForecast today random ndviData days in
  (forall p, p ∈ forecast r ->
     (5 # 10 <= fp_confidence p)%Q /\ (fp_confidence p < 9 # 10)%Q)
  /\ exists p, last (forecast r) = Some p /\ (fp_confidence p == 5 # 10)%Q.
Proof.
  intros Hlen Hdays r.
  destruct (generateStressForecast_points today random ndviData days Hlen)
    as (lastSample & _ & Hr); [lia|].
  subst r. rewrite Hr. cbn [forecast]. clear Hr.
  set (mk := AIStressDetector.forecastDay today random _ _ days).
  split.
  - intros p Hp. apply list_elem_of_fmap in Hp. destruct Hp as (i & -> & Hi).
    apply elem_of_seqZ in Hi.
    cbn [mk AIStressDetector.forecastDay fp_confidence].
    apply dayConfidence_range; lia.
  - exists (mk days). split.
    + assert (Hsplit : seqZ 1 days = seqZ 1 (days - 1) ++ [days]).
      { transitivity (seqZ 1 ((days - 1) + 1)); [f_equal; lia|].
        rewrite seqZ_app by lia. f_equal.
        replace (1 + (days - 1)) with days by lia. reflexivity. }
      rewrite Hsplit, map_app. apply last_snoc.
    + cbn [mk AIStressDetector.forecastDay fp_confidence].
      apply dayConfidence_last. exact Hdays.
Qed.

Lemma forecast_confidence_range_witness :
  exists p,
    last (forecast (AIStressDetector.generateStressForecast 0 (fun _ => 1 # 2)
                      Examples.steady_045 14)) = Some p
    /\ (fp_confidence p == 5 # 10)%Q.
Proof.
  apply (forecast_confidence_range 0 (fun _ => 1 # 2) Examples.steady_045 14);
    [simpl; lia|lia].
Defined.

(** X9: a horizon of zero or less gives no point at all, under the tag
    [linear_regression] and with the trend and the current NDVI filled in:
    it is not reported as a failure. *)
Theorem forecast_nonpositive_horizon (today : Z) (random : Z -> Q)
    (ndviData : list NDVISample) (days : Z) :
  (3 <= length ndviData)%nat -> days <= 0 ->
  let r := AIStressDetector.generateStressForecast today random ndviData days in
  forecast r = []
  /\ method r = "linear_regression"
  /\ fc_trend r = Some (AIStressDetector.calculateNDVITrend ndviData)
  /\ currentNDVI r = ndvi <$> last ndviData.
Proof.
  intros Hlen Hdays. unfold AIStressDetector.generateStressForecast.
  destruct (Nat.ltb_spec (length ndviData) 3) as [Hlt|_]; [lia|].
  destruct (last ndviData) as [lastSample|] eqn:Hlast.
  - replace (Z.to_nat days) with 0%nat by lia. repeat split.
  - apply last_None in Hlast. subst ndviData. simpl in Hlen. lia.
Qed.

Lemma forecast_nonpositive_horizon_witness :
  forecast (AIStressDetector.generateStressForecast 0 (fun _ => 1 # 2)
              Examples.steady_045 0) = [].
Proof.
  apply (forecast_nonpositive_horizon 0 (fun _ => 1 # 2) Examples.steady_045 0);
    [simpl; lia|lia].
Defined.

(** ** Phone numbers *)

Section PhoneFacts.
Import SMSService Vocabulary.

Lemma stripNonDigits_allDigits (s : string) : allDigits (stripNonDigits s) = true.
Proof.
  induction s as [|c rest IH]; simpl; [reflexivity|].
  destruct (isDigit c) eqn:E; simpl; [rewrite E, IH; reflexivity|exact IH].
Qed.

Lemma stripNonDigits_digits (s : string) :
  allDigits s = true -> stripNonDigits s = s.
Proof.
  induction s as [|c rest IH]; simpl; [reflexivity|].
  intros H. apply andb_true_iff in H. destruct H as [Hc Hrest].
  rewrite Hc, IH by exact Hrest. reflexivity.
Qed.

Lemma substring_all (s : string) : String.substring 0 (String.length s) s = s.
Proof. induction s as [|c rest IH]; simpl; [reflexivity|]. rewrite IH. reflexivity. Qed.

Lemma digits_no_plus (s : string) :
  allDigits s = true -> startsWith "+" s = false.
Proof.
  destruct s as [|c rest]; [reflexivity|]. cbn [allDigits]. intros H.
  apply andb_true_iff in H. destruct H as [Hc _].
  unfold startsWith. cbn [String.prefix].
  match goal with
  | |- context [Ascii.ascii_dec ?a c] =>
      destruct (Ascii.ascii_dec a c) as [<-|_]; [discriminate Hc|reflexivity]
  end.
Qed.

Lemma startsWith_zero (s : string) :
  startsWith "0" s = true -> exists rest, s = "0" +:+ rest.
Proof.
  destruct s as [|c rest]; [discriminate|].
  unfold startsWith. cbn [String.prefix].
  match goal with
  | |- context [Ascii.ascii_dec ?a c] =>
      destruct (Ascii.ascii_dec a c) as [<-|_]; [|discriminate]
  end.
  intros _. exists rest. reflexivity.
Qed.

Lemma startsWith_zero_intro (rest : string) :
  startsWith "0" ("0" +:+ rest) = true.
Proof.
  change ("0" +:+ rest) with (String (Ascii.ascii_of_nat 48) rest).
  unfold startsWith. cbn [String.prefix].
  match goal with
  | |- context [Ascii.ascii_dec ?a ?b] =>
      destruct (Ascii.ascii_dec a b) as [_|Hne]; [|exfalso; apply Hne; reflexivity]
  end.
  destruct rest; reflexivity.
Qed.

End PhoneFacts.

(** X10: [formatPhoneNumber] answers exactly for inputs with 10 to 15
    digits, and its answer is [+62] followed by those digits without
    their first character when that is a zero, and by all of them
    otherwise: [081234567890] becomes [+6281234567890], and only one zero
    is dropped.  The branch for a number that already starts with [+] is
    never taken. *)
Theorem formatPhoneNumber_shape (raw : string) :
  (SMSService.formatPhoneNumber raw = None
   <-> ~ (10 <= String.length (SMSService.stripNonDigits raw) <= 15)%nat)
  /\ (forall p, SMSService.formatPhoneNumber raw = Some p ->
        exists digits,
          p = "+62" +:+ digits
          /\ Vocabulary.allDigits digits = true
          /\ (9 <= String.length digits <= 15)%nat
          /\ ((exists rest, SMSService.stripNonDigits raw = "0" +:+ rest) ->
              SMSService.stripNonDigits raw = "0" +:+ digits)
          /\ ((forall rest, SMSService.stripNonDigits raw <> "0" +:+ rest) ->
              SMSService.stripNonDigits raw = digits)).
Proof.
  unfold SMSService.formatPhoneNumber, SMSService.validatePhoneNumber.
  set (clean := SMSService.stripNonDigits raw).
  pose proof (stripNonDigits_allDigits raw) as Hdigits. fold clean in Hdigits.
  cbv zeta.
  destruct (Nat.leb_spec 10 (String.length clean)) as [Hlo|Hlo];
    [destruct (Nat.leb_spec (String.length clean) 15) as [Hhi|Hhi]|]; cbn [andb].
  - rewrite (digits_no_plus clean Hdigits). split.
    + split; [|intros H; lia].
      destruct (SMSService.startsWith "0" clean); discriminate.
    + intros p Hp.
      destruct (SMSService.startsWith "0" clean) eqn:Hzero.
      * apply startsWith_zero in Hzero. destruct Hzero as [rest Hrest].
        pose proof Hrest as Hshape.
        change ("0" +:+ rest) with (String (Ascii.ascii_of_nat 48) rest) in Hrest.
        rewrite Hrest in Hp, Hdigits, Hlo, Hhi.
        cbn [String.length String.substring Vocabulary.allDigits Nat.sub] in Hp, Hdigits, Hlo, Hhi.
        rewrite Nat.sub_0_r, substring_all in Hp.
        apply andb_true_iff in Hdigits. destruct Hdigits as [_ Hdigits].
        inversion Hp. exists rest.
        split_and!; [reflexivity|exact Hdigits|lia|lia| |].
        -- intros _. exact Hshape.
        -- intros Hno. exfalso. exact (Hno rest Hshape).
      * inversion Hp. exists clean.
        split_and!; [reflexivity|exact Hdigits|lia|lia| |].
        -- intros [rest Hrest]. exfalso.
           rewrite Hrest, startsWith_zero_intro in Hzero. discriminate Hzero.
        -- intros _. reflexivity.
  - split; [split; [intros _; lia|reflexivity]|discriminate].
  - split; [split; [intros _; lia|reflexivity]|discriminate].
Qed.

(** A number in the local format, and one with two leading zeros. *)
Lemma formatPhoneNumber_leading_zero :
  SMSService.formatPhoneNumber "081234567890" = Some "+6281234567890"
  /\ SMSService.formatPhoneNumber "0081234567890" = Some "+62081234567890".
Proof. split; vm_compute; reflexivity. Qed.

(** X11: a number that already carries the country code gets it a second
    time: for 8 to 13 digits after [+62] the answer starts with [+6262]. *)
Theorem formatPhoneNumber_repeats_country_code (digits : string) :
  Vocabulary.allDigits digits = true ->
  (8 <= String.length digits <= 13)%nat ->
  SMSService.formatPhoneNumber ("+62" +:+ digits) = Some ("+6262" +:+ digits).
Proof.
  intros Hdigits Hlen.
  unfold SMSService.formatPhoneNumber, SMSService.validatePhoneNumber.
  assert (Hstrip : SMSService.stripNonDigits ("+62" +:+ digits)
                   = "62" +:+ digits).
  { simpl. rewrite stripNonDigits_digits by exact Hdigits. reflexivity. }
  rewrite Hstrip.
  assert (Hl : String.length ("62" +:+ digits) = S (S (String.length digits)))
    by reflexivity.
  assert (Hplus : SMSService.startsWith "+" ("62" +:+ digits) = false) by reflexivity.
  assert (Hzero : SMSService.startsWith "0" ("62" +:+ digits) = false) by reflexivity.
  rewrite Hl.
  destruct (Nat.leb_spec 10 (S (S (String.length digits)))) as [_|H]; [|lia].
  destruct (Nat.leb_spec (S (S (String.length digits))) 15) as [_|H]; [|lia].
  cbn [andb]. rewrite Hplus, Hzero. reflexivity.
Qed.

Lemma formatPhoneNumber_repeats_country_code_witness :
  SMSService.formatPhoneNumber "+6281234567890" = Some "+626281234567890".
Proof.
  apply (formatPhoneNumber_repeats_country_code "81234567890");
    [reflexivity|simpl; lia].
Defined.

(** ** Bulk alerts *)

Section BulkFacts.
Import SMSBulk.

Lemma findStress_Some (stressData : list FarmStress) (farmId : Key) (fm : FarmStress) :
  findStress stressData farmId = Some fm ->
  fm ∈ stressData /\ fs_farmId fm = farmId.
Proof.
  unfold findStress. intros H. apply head_Some_elem_of in H.
  apply list_elem_of_filter in H. destruct H as [Hid Hin]. auto.
Qed.

Lemma bulkLoop_invariant (gateway : nat -> option (option string))
    (stressData : list FarmStress) (farmers : list BulkFarmer) :
  forall sent results,
    let out := bulkLoop gateway stressData farmers sent results in
    (length out.1 + length results = length sent + length out.2)%nat
    /\ (length results <= length out.2 <= length results + length farmers)%nat
    /\ (forall r, r ∈ out.2 ->
          r ∈ results
          \/ exists fm, fm ∈ stressData /\ fs_farmId fm = br_farmId r
                        /\ fs_stressLevel fm <> "healthy").
Proof.
  induction farmers as [|farmer rest IH]; intros sent results; cbv zeta in *;
    cbn [bulkLoop].
  - cbn [fst snd length]. repeat split; try lia. intros r Hr. left. exact Hr.
  - destruct (findStress stressData (bf_farmId farmer)) as [fm|] eqn:Hfind.
    2:{ destruct (IH sent results) as (H1 & H2 & H3). cbn [length].
        repeat split; try lia. exact H3. }
    destruct (truthyPhone (bf_phoneNumber farmer)) as [phone|].
    2:{ destruct (IH sent results) as (H1 & H2 & H3). cbn [length].
        repeat split; try lia. exact H3. }
    destruct (String.eqb_spec (fs_stressLevel fm) "healthy") as [Hh|Hh]; cbn [negb].
    { destruct (IH sent results) as (H1 & H2 & H3). cbn [length].
      repeat split; try lia. exact H3. }
    destruct (sendAlert _ _ _ _ _ _) as [request result].
    destruct (IH (sent ++ [request])
                (results ++ [mkBulkResult (bf_farmerId farmer) (bf_farmId farmer) result]))
      as (H1 & H2 & H3).
    rewrite (length_app sent), (length_app results) in H1.
    rewrite (length_app results) in H2. cbn [length] in *.
    repeat split; try lia.
    intros r Hr. apply H3 in Hr. destruct Hr as [Hr|Hr]; [|right; exact Hr].
    apply elem_of_app in Hr. destruct Hr as [Hr|Hr]; [left; exact Hr|].
    apply list_elem_of_singleton in Hr. subst r. right.
    apply findStress_Some in Hfind. destruct Hfind as [Hin Hid].
    exists fm. cbn [br_farmId]. auto.
Qed.

Lemma success_failure_partition (results : list BulkResult) :
  (length (filter (fun r => sr_success (br_result r) = true) results)
   + length (filter (fun r => sr_success (br_result r) = false) results))%nat
  = length results.
Proof.
  induction results as [|r rest IH]; [reflexivity|].
  rewrite !filter_cons.
  destruct (sr_success (br_result r)) eqn:E;
    repeat case_decide; try congruence; cbn [length]; lia.
Qed.

End BulkFacts.

(** X12: [sendBulkAlerts] reports as many results as requests it built, at
    most one per farmer, split into successes and failures; every result
    belongs to a farm listed with a level other than [healthy]. *)
Theorem sendBulkAlerts_counts (gateway : nat -> option (option string))
    (farmers : list BulkFarmer) (stressData : list FarmStress) :
  let out := SMSBulk.sendBulkAlerts gateway farmers stressData in
  totalSent out.2 = (successCount out.2 + failureCount out.2)%nat
  /\ totalSent out.2 = length out.1
  /\ (totalSent out.2 <= length farmers)%nat
  /\ (forall r, r ∈ br_results out.2 ->
        exists fm, fm ∈ stressData /\ fs_farmId fm = br_farmId r
                   /\ fs_stressLevel fm <> "healthy").
Proof.
  unfold SMSBulk.sendBulkAlerts.
  pose proof (bulkLoop_invariant gateway stressData farmers [] []) as (H1 & H2 & H3).
  destruct (SMSBulk.bulkLoop gateway stressData farmers [] []) as [sent results].
  cbn [fst snd length totalSent successCount failureCount br_results] in *.
  repeat split.
  - symmetry. apply success_failure_partition.
  - lia.
  - lia.
  - intros r Hr. apply H3 in Hr. destruct Hr as [Hr|Hr]; [|exact Hr].
    by apply elem_of_nil in Hr.
Qed.

(** ** The orchestrator, continued *)

Section OrchestratorFrame.
Import AlertService Vocabulary.

Lemma sendAlert_users (env : Env) (st : State) (farmer : User) (fm : Farm)
    (analysis : Analysis) :
  db_users (sendAlert env st farmer fm analysis).2 = db_users st.
Proof.
  unfold sendAlert.
  destruct (phoneNumber farmer) as [raw|]; [|reflexivity].
  destruct (SMSService.formatPhoneNumber raw) as [phone|]; [|reflexivity].
  destruct (smsAccepted env); reflexivity.
Qed.

Lemma upsertForecast_measured (doc : NDVISample) (store : list NDVISample) :
  forecastFlag doc = true ->
  filter measured (upsertForecast doc store) = filter measured store.
Proof.
  intros Hdoc. unfold measured.
  induction store as [|d rest IH]; cbn [upsertForecast].
  - rewrite filter_cons. case_decide; [congruence|reflexivity].
  - destruct (String.eqb (farm d) (farm doc) && (date d =? date doc)%Z && forecastFlag d)%bool
      eqn:Hmatch.
    + apply andb_true_iff in Hmatch. destruct Hmatch as [_ Hflag].
      rewrite !filter_cons. repeat case_decide; congruence.
    + rewrite !filter_cons. case_decide; rewrite IH; reflexivity.
Qed.

Lemma storeForecastDays_measured (farmId : Key) (points : list ForecastPoint) :
  forall store,
    filter measured (storeForecastDays farmId points store) = filter measured store.
Proof.
  induction points as [|p rest IH]; intros store; cbn [storeForecastDays];
    [reflexivity|].
  destruct (predictedNDVI p); try reflexivity.
  rewrite IH. apply upsertForecast_measured. reflexivity.
Qed.

Lemma setLastAnalysis_fields (a : LastNDVIAnalysis) (fm : Farm) :
  farm_id (setLastAnalysis a fm) = farm_id fm
  /\ owner (setLastAnalysis a fm) = owner fm
  /\ farm_isActive (setLastAnalysis a fm) = farm_isActive fm
  /\ farm_name (setLastAnalysis a fm) = farm_name fm.
Proof. repeat split. Qed.

(** What a call leaves of the state it received, in terms of the state
    after [storeAnalysisResults]. *)
Lemma analyzeFarmAndAlert_state (env : Env) (st : State) (farmId : Key) :
  let st' := (analyzeFarmAndAlert env st farmId).2 in
  st' = st
  \/ exists analysis fc,
       db_users st' = db_users st
       /\ db_farms st' = db_farms (storeAnalysisResults env st farmId analysis fc)
       /\ db_ndvi st' = db_ndvi (storeAnalysisResults env st farmId analysis fc).
Proof.
  unfold analyzeFarmAndAlert.
  destruct (db_farms st !! farmId) as [fm|]; [|left; reflexivity].
  destruct (farm_isActive fm); [|left; reflexivity]. cbn [negb].
  destruct (db_users st !! owner fm) as [farmOwner|]; [|left; reflexivity].
  destruct (user_isActive farmOwner); [|left; reflexivity]. cbn [negb].
  destruct (length (findNDVIData (db_ndvi st) farmId) <? 3)%nat; [left; reflexivity|].
  right.
  set (analysis := AIStressDetector.detectCropStress _ _).
  set (fc := AIStressDetector.generateStressForecast _ _ _ _).
  exists analysis, fc.
  destruct (shouldSendAlert _ _ _ _); [|cbn [snd]; auto].
  match goal with
  | |- context [sendAlert ?e ?s ?u ?f ?a] =>
      pose proof (sendAlert_effects e s u f a) as (_ & Hn & Hf & _);
      pose proof (sendAlert_users e s u f a) as Hu;
      destruct (sendAlert e s u f a) as [alertResult st2]
  end.
  rewrite storeAlertRecord_without_documents. cbn [fst snd] in *.
  rewrite Hu, Hn, Hf. auto.
Qed.

Lemma analysis_frame_users (env : Env) (st : State) (farmId : Key) :
  db_users (analyzeFarmAndAlert env st farmId).2 = db_users st.
Proof.
  destruct (analyzeFarmAndAlert_state env st farmId) as [->|(a & fc & Hu & _)];
    [reflexivity|exact Hu].
Qed.

End OrchestratorFrame.

(** X13: an accepted request is cached under the [_id] of the farm
    document with the time of sending, and the guard then refuses that key
    for the next 24 hours whatever the new analysis says; a request that
    fails, or is never made, leaves the cache as it was. *)
Theorem sendAlert_cooldown (env : Env) (st : State) (farmer : User) (fm : Farm)
    (analysis : Analysis) :
  let out := AlertService.sendAlert env st farmer fm analysis in
  (sr_success out.1 = true ->
     (timestamp <$> stressCache out.2 !! farm_id fm) = Some (nowSend env)
     /\ length (outbox out.2) = S (length (outbox st))
     /\ forall now next,
          now - nowSend env < AlertService.alertCooldown ->
          AlertService.shouldSendAlert (stressCache out.2) now (farm_id fm) next = false)
  /\ (sr_success out.1 = false -> stressCache out.2 = stressCache st).
Proof.
  unfold AlertService.sendAlert.
  destruct (phoneNumber farmer) as [raw|]; [|split; [discriminate|reflexivity]].
  destruct (SMSService.formatPhoneNumber raw) as [phone|];
    [|split; [discriminate|reflexivity]].
  destruct (smsAccepted env); cbn [fst snd sr_success stressCache outbox];
    (split; [|try discriminate; reflexivity]); [|discriminate].
  intros _. split; [rewrite lookup_insert_eq; reflexivity|].
  split; [rewrite length_app; simpl; lia|].
  intros now next Hnow.
  destruct (AlertService.shouldSendAlert _ _ _ _) eqn:Hguard; [|reflexivity].
  apply shouldSendAlert_true_iff in Hguard.
  destruct Hguard as (_ & _ & _ & Hcache).
  specialize (Hcache _ (lookup_insert_eq _ _ _)). cbn [timestamp] in Hcache. lia.
Qed.

(** X14: a call never touches the users, changes no farm but the one it
    was called for, keeps that farm's identity, owner, name and activity,
    creates no farm, and leaves every measured NDVI document in place. *)
Theorem analysis_frame (env : Env) (st : State) (farmId : Key) :
  let st' := (AlertService.analyzeFarmAndAlert env st farmId).2 in
  db_users st' = db_users st
  /\ (forall k, k <> farmId -> db_farms st' !! k = db_farms st !! k)
  /\ (forall fm', db_farms st' !! farmId = Some fm' ->
        exists fm, db_farms st !! farmId = Some fm
                   /\ farm_id fm' = farm_id fm /\ owner fm' = owner fm
                   /\ farm_isActive fm' = farm_isActive fm
                   /\ farm_name fm' = farm_name fm)
  /\ filter Vocabulary.measured (db_ndvi st')
     = filter Vocabulary.measured (db_ndvi st).
Proof.
  intros st'.
  destruct (analyzeFarmAndAlert_state env st farmId)
    as [Hsame|(analysis & fc & Hu & Hf & Hn)]; fold st' in Hsame || fold st' in Hu, Hf, Hn.
  - rewrite Hsame. repeat split; auto. intros fm' H. exists fm'. auto.
  - rewrite Hu, Hf, Hn. cbn [AlertService.storeAnalysisResults db_farms db_ndvi].
    split; [reflexivity|]. split; [|split].
    + intros k Hk. apply lookup_alter_ne. congruence.
    + intros fm' Hfm'. rewrite lookup_alter_eq in Hfm'.
      destruct (db_farms st !! farmId) as [fm|]; [|discriminate Hfm'].
      cbn in Hfm'. inversion Hfm'. exists fm. split; [reflexivity|].
      apply setLastAnalysis_fields.
    + apply storeForecastDays_measured.
Qed.

(** ** The NDVI query *)

Section QueryFacts.
Import AlertService Vocabulary.

Lemma insertByDateDesc_perm (d : NDVISample) (sorted : list NDVISample) :
  insertByDateDesc d sorted ≡ₚ d :: sorted.
Proof.
  induction sorted as [|e rest IH]; cbn [insertByDateDesc]; [reflexivity|].
  destruct (date e <? date d)%Z; [reflexivity|].
  rewrite IH. apply Permutation_swap.
Qed.

Lemma sortByDateDesc_perm (docs : list NDVISample) : sortByDateDesc docs ≡ₚ docs.
Proof.
  unfold sortByDateDesc. induction docs as [|d rest IH]; cbn [foldr]; [reflexivity|].
  rewrite insertByDateDesc_perm, IH. reflexivity.
Qed.

Lemma insertByDateDesc_descending (d : NDVISample) (sorted : list NDVISample) :
  descending sorted -> descending (insertByDateDesc d sorted).
Proof.
  induction sorted as [|e rest IH]; cbn [insertByDateDesc descending].
  - intros _. split; [|exact I]. intros x Hx. by apply elem_of_nil in Hx.
  - intros [Hhead Hrest].
    destruct (Z.ltb_spec (date e) (date d)) as [Hlt|Hge]; cbn [descending].
    + split; [|split; assumption].
      intros x Hx. apply elem_of_cons in Hx. destruct Hx as [->|Hx]; [lia|].
      specialize (Hhead x Hx). lia.
    + split; [|apply IH; exact Hrest].
      intros x Hx. rewrite insertByDateDesc_perm in Hx.
      apply elem_of_cons in Hx. destruct Hx as [->|Hx]; [lia|apply Hhead; exact Hx].
Qed.

Lemma sortByDateDesc_descending (docs : list NDVISample) :
  descending (sortByDateDesc docs).
Proof.
  unfold sortByDateDesc. induction docs as [|d rest IH]; cbn [foldr]; [exact I|].
  apply insertByDateDesc_descending. exact IH.
Qed.

Lemma take_descending (n : nat) (l : list NDVISample) :
  descending l -> descending (take n l).
Proof.
  revert n. induction l as [|d rest IH]; intros [|n]; cbn [take descending]; auto.
  intros [Hhead Hrest]. split; [|apply IH; exact Hrest].
  intros x Hx. apply Hhead. eapply subseteq_take. exact Hx.
Qed.

End QueryFacts.

(** X15: the query of the orchestrator returns at most 30 documents, all
    of them stored for the farm, the most recent first; with 30 or fewer
    documents for the farm it returns all of them, forecast documents
    included. *)
Theorem findNDVIData_sorted (store : list NDVISample) (farmId : Key) :
  let found := AlertService.findNDVIData store farmId in
  Vocabulary.descending found
  /\ (length found <= 30)%nat
  /\ (forall d, d ∈ found -> d ∈ store /\ farm d = farmId)
  /\ ((length (filter (fun d => farm d = farmId) store) <= 30)%nat ->
      found ≡ₚ filter (fun d => farm d = farmId) store).
Proof.
  unfold AlertService.findNDVIData. cbv zeta.
  split; [apply take_descending, sortByDateDesc_descending|].
  split; [rewrite length_take; lia|]. split.
  - intros d Hd. apply subseteq_take in Hd. rewrite sortByDateDesc_perm in Hd.
    apply list_elem_of_filter in Hd. destruct Hd as [Hfarm Hin]. auto.
  - intros Hlen. rewrite take_ge.
    + apply sortByDateDesc_perm.
    + rewrite sortByDateDesc_length. exact Hlen.
Qed.

(** ** Stored forecasts *)

Section ForecastStore.
Import AlertService Vocabulary.

Lemma upsertForecast_length (doc : NDVISample) (store : list NDVISample) :
  hasForecastDoc (farm doc) (date doc) store = true ->
  length (upsertForecast doc store) = length store.
Proof.
  unfold hasForecastDoc.
  induction store as [|d rest IH]; cbn [upsertForecast existsb]; [discriminate|].
  destruct (String.eqb (farm d) (farm doc) && (date d =? date doc)%Z && forecastFlag d)%bool;
    cbn [orb length]; [reflexivity|].
  intros H. rewrite IH by exact H. reflexivity.
Qed.

Lemma upsertForecast_keeps (doc : NDVISample) (farmId : Key) (day : Z)
    (store : list NDVISample) :
  forecastFlag doc = true ->
  hasForecastDoc farmId day store = true ->
  hasForecastDoc farmId day (upsertForecast doc store) = true.
Proof.
  intros Hdoc. unfold hasForecastDoc.
  induction store as [|d rest IH]; cbn [upsertForecast existsb]; [discriminate|].
  destruct (String.eqb (farm d) (farm doc) && (date d =? date doc)%Z && forecastFlag d)%bool
    eqn:Hmatch; cbn [existsb].
  - intros H. apply orb_true_iff in H. destruct H as [H|H].
    + apply andb_true_iff in Hmatch. destruct Hmatch as [Hmatch _].
      apply andb_true_iff in Hmatch. destruct Hmatch as [Hfarm Hdate].
      apply String.eqb_eq in Hfarm. apply Z.eqb_eq in Hdate.
      rewrite <- Hfarm, <- Hdate, Hdoc.
      apply andb_true_iff in H. destruct H as [H _]. rewrite H. reflexivity.
    + rewrite H. apply orb_true_r.
  - intros H. apply orb_true_iff in H. destruct H as [H|H].
    + rewrite H. reflexivity.
    + rewrite IH by exact H. apply orb_true_r.
Qed.

Lemma upsertForecast_has (doc : NDVISample) (store : list NDVISample) :
  forecastFlag doc = true ->
  hasForecastDoc (farm doc) (date doc) (upsertForecast doc store) = true.
Proof.
  intros Hdoc. unfold hasForecastDoc.
  induction store as [|d rest IH]; cbn [upsertForecast existsb].
  - rewrite String.eqb_refl, Z.eqb_refl, Hdoc. reflexivity.
  - destruct (String.eqb (farm d) (farm doc) && (date d =? date doc)%Z && forecastFlag d)%bool;
      cbn [existsb].
    + rewrite String.eqb_refl, Z.eqb_refl, Hdoc. reflexivity.
    + rewrite IH. apply orb_true_r.
Qed.

Lemma storeForecastDays_keeps (farmId f : Key) (day : Z) (points : list ForecastPoint) :
  forall store,
    hasForecastDoc f day store = true ->
    hasForecastDoc f day (storeForecastDays farmId points store) = true.
Proof.
  induction points as [|p rest IH]; intros store H; cbn [storeForecastDays];
    [exact H|].
  destruct (predictedNDVI p); try exact H.
  apply IH. apply upsertForecast_keeps; [reflexivity|exact H].
Qed.

(** Finite points all get their document. *)
Lemma storeForecastDays_has (farmId : Key) (points : list ForecastPoint) :
  (forall p, p ∈ points -> exists v, predictedNDVI p = JsNum.Fin v) ->
  forall store p,
    p ∈ points ->
    hasForecastDoc farmId (fp_date p * msPerDay)
      (storeForecastDays farmId points store) = true.
Proof.
  induction points as [|q rest IH]; intros Hfin store p Hp;
    [by apply elem_of_nil in Hp|].
  cbn [storeForecastDays].
  destruct (Hfin q (list_elem_of_here _ _)) as [v Hv]. rewrite Hv.
  apply elem_of_cons in Hp. destruct Hp as [->|Hp].
  - apply storeForecastDays_keeps.
    apply (upsertForecast_has (mkSample farmId (fp_date q * msPerDay) v 0 true)).
    reflexivity.
  - apply IH; [|exact Hp]. intros x Hx. apply Hfin. apply list_elem_of_further. exact Hx.
Qed.

(** Points whose documents exist are written over them. *)
Lemma storeForecastDays_overwrites (farmId : Key) (points : list ForecastPoint) :
  forall store,
    (forall p, p ∈ points ->
       hasForecastDoc farmId (fp_date p * msPerDay) store = true) ->
    length (storeForecastDays farmId points store) = length store.
Proof.
  induction points as [|q rest IH]; intros store Hhas; cbn [storeForecastDays];
    [reflexivity|].
  destruct (predictedNDVI q) as [v| | |]; try reflexivity.
  rewrite IH.
  - apply (upsertForecast_length (mkSample farmId (fp_date q * msPerDay) v 0 true)).
    apply Hhas. apply list_elem_of_here.
  - intros p Hp. apply upsertForecast_keeps; [reflexivity|].
    apply Hhas. apply list_elem_of_further. exact Hp.
Qed.

Lemma forecast_points (today : Z) (random : Z -> Q) (ndviData : list NDVISample)
    (days : Z) (p : ForecastPoint) :
  (3 <= length ndviData)%nat ->
  p ∈ forecast (AIStressDetector.generateStressForecast today random ndviData days) ->
  (exists v, predictedNDVI p = JsNum.Fin v)
  /\ exists i, 1 <= i <= days /\ fp_date p = today + i.
Proof.
  intros Hlen Hp. unfold AIStressDetector.generateStressForecast in Hp.
  destruct (Nat.ltb_spec (length ndviData) 3) as [Hlt|_]; [lia|].
  destruct (last ndviData) as [lastSample|]; [|by apply elem_of_nil in Hp].
  cbn [forecast] in Hp. apply forecastLoop_elements in Hp.
  destruct Hp as [Hp|(j & Hj & ->)]; [by apply elem_of_nil in Hp|].
  destruct (calculateNDVITrend_finite ndviData) as [slope ->].
  split; [eexists; reflexivity|]. exists j. split; [exact Hj|reflexivity].
Qed.

End ForecastStore.

(** X16: storing a second forecast made on the same day for the same
    horizon writes over the documents of the first one: the collection
    does not grow, whatever samples and random values the second forecast
    was computed from. *)
Theorem forecast_store_overwrites (farmId : Key) (today days : Z)
    (random1 random2 : Z -> Q) (ndviData1 ndviData2 : list NDVISample)
    (store : list NDVISample) :
  (3 <= length ndviData1)%nat -> (3 <= length ndviData2)%nat ->
  let first := AIStressDetector.generateStressForecast today random1 ndviData1 days in
  let second := AIStressDetector.generateStressForecast today random2 ndviData2 days in
  let stored := AlertService.storeForecastDays farmId (forecast first) store in
  length (AlertService.storeForecastDays farmId (forecast second) stored)
  = length stored.
Proof.
  intros Hlen1 Hlen2 first second stored.
  apply storeForecastDays_overwrites. intros p Hp.
  destruct (forecast_points today random2 ndviData2 days p Hlen2 Hp)
    as (_ & i & Hi & Hdate).
  destruct (generateStressForecast_points today random1 ndviData1 days Hlen1)
    as (lastSample & _ & Hfirst); [lia|].
  set (q := AIStressDetector.forecastDay today random1
              (AIStressDetector.calculateNDVITrend ndviData1) (ndvi lastSample) days i).
  assert (Hq : q ∈ forecast first).
  { unfold first. rewrite Hfirst. cbn [forecast].
    apply list_elem_of_fmap. exists i. split; [reflexivity|].
    apply elem_of_seqZ. lia. }
  replace (fp_date p) with (fp_date q) by (rewrite Hdate; reflexivity).
  apply storeForecastDays_has; [|exact Hq].
  intros x Hx. apply (forecast_points today random1 ndviData1 days x Hlen1 Hx).
Qed.

Lemma forecast_store_overwrites_witness :
  let first :=
    AIStressDetector.generateStressForecast 0 (fun _ => 1 # 2) Examples.steady_045 14 in
  let second :=
    AIStressDetector.generateStressForecast 0 (fun _ => 1 # 4) Examples.high_stress 14 in
  let stored := AlertService.storeForecastDays "farm1" (forecast first) Examples.steady_045 in
  length (AlertService.storeForecastDays "farm1" (forecast second) stored)
  = length stored.
Proof.
  apply (forecast_store_overwrites "farm1" 0 14 (fun _ => 1 # 2) (fun _ => 1 # 4)
           Examples.steady_045 Examples.high_stress Examples.steady_045);
    simpl; lia.
Defined.

(** ** All farms *)

Section AllFarms.
Import AlertService AlertServiceMore.

(** A result that reports an alert comes with a level above [low]. *)
Lemma alerted_not_healthy (env : Env) (st : State) (farmId : Key) :
  let r := (analyzeFarmAndAlert env st farmId).1 in
  ~ (alertSentOf r = true /\ isHealthy r = true).
Proof.
  unfold analyzeFarmAndAlert.
  destruct (db_farms st !! farmId) as [fm|]; [|intros [H _]; discriminate H].
  destruct (farm_isActive fm); [|intros [H _]; discriminate H]. cbn [negb].
  destruct (db_users st !! owner fm) as [farmOwner|]; [|intros [H _]; discriminate H].
  destruct (user_isActive farmOwner); [|intros [H _]; discriminate H]. cbn [negb].
  destruct (length (findNDVIData (db_ndvi st) farmId) <? 3)%nat;
    [intros [H _]; discriminate H|].
  destruct (shouldSendAlert _ _ _ _) eqn:Hguard; [|intros [H _]; discriminate H].
  apply shouldSendAlert_true_iff in Hguard. destruct Hguard as (Hh & _).
  destruct (sendAlert _ _ _ _ _) as [alertResult st2].
  destruct (storeAlertRecord _ _ _ _ _ _ _) as [stored st3].
  cbn [fst alertSentOf isHealthy]. intros [_ H].
  apply String.eqb_eq in H. contradiction.
Qed.

Lemma analyzeEach_results (envOf : Farm -> Env) (farms : list Farm) :
  forall st,
    let out := analyzeEach envOf farms st in
    map fr_farmId out.1 = map farm_id farms
    /\ db_users out.2 = db_users st
    /\ (length (filter (fun r => alertSentOf (fr_result r) = true) out.1)
        + length (filter (fun r => isHealthy (fr_result r) = true) out.1)
        <= length farms)%nat.
Proof.
  induction farms as [|fm rest IH]; intros st; cbv zeta; cbn [analyzeEach].
  - cbn. repeat split. lia.
  - pose proof (alerted_not_healthy (envOf fm) st (farm_id fm)) as Hone.
    pose proof (analysis_frame_users (envOf fm) st (farm_id fm)) as Hu.
    destruct (analyzeFarmAndAlert (envOf fm) st (farm_id fm)) as [result st1].
    specialize (IH st1). cbv zeta in IH.
    destruct (analyzeEach envOf rest st1) as [results st2].
    cbn [fst snd] in *. destruct IH as (Hids & Husers & Hcount).
    split; [cbn [map fr_farmId]; rewrite Hids; reflexivity|].
    split; [rewrite Husers; exact Hu|].
    rewrite !filter_cons. cbn [fr_result length].
    repeat case_decide; cbn [length]; try lia.
    exfalso. apply Hone. auto.
Qed.

End AllFarms.

(** X17: [analyzeAllFarms] analyses every active farm once, in the order
    found, under the [_id] of its document; a farm counted as alerted is
    never also counted as healthy, so the two counters together stay
    within the number of farms; the users are untouched. *)
Theorem analyzeAllFarms_summary (envOf : Farm -> Env) (st : State) :
  let out := AlertServiceMore.analyzeAllFarms envOf st in
  let summary := out.1.1 in
  totalFarms summary = length (AlertServiceMore.findActiveFarms st)
  /\ analyzed summary = totalFarms summary
  /\ map fr_farmId out.1.2 = map farm_id (AlertServiceMore.findActiveFarms st)
  /\ (alertsSent summary + healthy summary <= analyzed summary)%nat
  /\ db_users out.2 = db_users st.
Proof.
  unfold AlertServiceMore.analyzeAllFarms.
  pose proof (analyzeEach_results envOf (AlertServiceMore.findActiveFarms st) st)
    as (Hids & Husers & Hcount).
  destruct (AlertServiceMore.analyzeEach envOf (AlertServiceMore.findActiveFarms st) st)
    as [results st'].
  cbn [fst snd totalFarms analyzed alertsSent healthy] in *.
  assert (Hlen : length results = length (AlertServiceMore.findActiveFarms st)).
  { rewrite <- (length_map fr_farmId), Hids, length_map. reflexivity. }
  repeat split; try assumption; lia.
Qed.

(** ** Alert statistics *)

Section Statistics.
Import AlertServiceMore Vocabulary.

Lemma totalCount_bump {K} `{Countable K} (k : K) (m : gmap K nat) :
  totalCount (bump k m) = S (totalCount m).
Proof.
  unfold bump, totalCount.
  assert (Hcomm : forall (i : K) (x : nat) (m' : gmap K nat),
            forall j1 j2 z1 z2 y,
              j1 <> j2 -> <[i:=x]> m' !! j1 = Some z1 -> <[i:=x]> m' !! j2 = Some z2 ->
              (z1 + (z2 + y) = z2 + (z1 + y))%nat) by (intros; lia).
  destruct (m !! k) as [n|] eqn:E; cbn [default].
  - rewrite <- (insert_delete_id m k n E) at 2.
    rewrite <- (insert_delete_eq m k (S n)).
    rewrite !map_fold_insert_L by (try apply lookup_delete_eq; apply Hcomm).
    lia.
  - rewrite map_fold_insert_L by (try exact E; apply Hcomm). lia.
Qed.

Lemma ofNat_S (n : nat) :
  (AIStressDetector.ofNat (S n) == AIStressDetector.ofNat n + 1)%Q.
Proof.
  unfold AIStressDetector.ofNat. rewrite Nat2Z.inj_succ.
  unfold Z.succ. rewrite inject_Z_plus. reflexivity.
Qed.

Lemma orZero_unit (c : Q) :
  (0 <= c <= 1)%Q -> (0 <= orZero (Some c) <= 1)%Q.
Proof.
  intros Hc. unfold orZero. destruct (Qeq_bool c 0); [split; discriminate|exact Hc].
Qed.

Lemma countAlert_fold (alerts : list StoredAlert) :
  forall (stats : AlertStatistics) (total : Q),
    let out := fold_left (fun acc a => countAlert a acc) alerts (stats, total) in
    totalAlerts out.1 = totalAlerts stats
    /\ (acknowledged out.1 + unacknowledged out.1
        = acknowledged stats + unacknowledged stats + length alerts)%nat
    /\ totalCount (byStressLevel out.1)
       = (totalCount (byStressLevel stats) + length alerts)%nat
    /\ totalCount (byDay out.1) = (totalCount (byDay stats) + length alerts)%nat
    /\ totalCount (alertTypes out.1)
       = (totalCount (alertTypes stats) + length alerts)%nat
    /\ totalCount (urgency out.1) = (totalCount (urgency stats) + length alerts)%nat
    /\ ((forall a, a ∈ alerts -> (0 <= al_confidence (sa_alert a) <= 1)%Q) ->
        (total <= out.2)%Q
        /\ (out.2 <= total + AIStressDetector.ofNat (length alerts))%Q).
Proof.
  induction alerts as [|a rest IH]; intros stats total; cbv zeta; cbn [fold_left].
  - cbn [fst snd length]. split_and!; try lia.
    intros _. change (AIStressDetector.ofNat 0) with 0%Q.
    rewrite Qplus_0_r. split; apply Qle_refl.
  - specialize (IH (countAlert a (stats, total)).1 (countAlert a (stats, total)).2).
    cbv zeta in IH. rewrite <- surjective_pairing in IH.
    destruct IH as (H1 & H2 & H3 & H4 & H5 & H6 & H7).
    cbn [countAlert fst snd totalAlerts acknowledged unacknowledged byStressLevel
         byDay alertTypes urgency] in H1, H2, H3, H4, H5, H6, H7.
    rewrite !totalCount_bump in *. cbn [length countAlert].
    split_and!; try lia.
    + destruct (al_acknowledged (sa_alert a)); lia.
    + intros Hconf. destruct H7 as [Hlo Hhi].
      { intros x Hx. apply Hconf. apply list_elem_of_further. exact Hx. }
      pose proof (orZero_unit _ (Hconf a (list_elem_of_here _ _))) as Hz.
      rewrite ofNat_S. split; lra.
Qed.

End Statistics.

(** X18: in the statistics every alert of the window is counted once in
    each breakdown: acknowledged and unacknowledged add up to the total, and
    so do the counters by stress level, by day, by alert type and by
    urgency.  With no alert the average confidence is 0, and it lies between
    0 and 1 when the stored confidences do. *)
Theorem getAlertStatistics_totals (now days : Z) (userId : option Key)
    (collection : list StoredAlert) :
  let s := AlertServiceMore.getAlertStatistics now days userId collection in
  totalAlerts s
  = length (AlertServiceMore.findAlertsSince (now - days * AlertService.msPerDay)
              userId collection)
  /\ (acknowledged s + unacknowledged s)%nat = totalAlerts s
  /\ Vocabulary.totalCount (byStressLevel s) = totalAlerts s
  /\ Vocabulary.totalCount (byDay s) = totalAlerts s
  /\ Vocabulary.totalCount (alertTypes s) = totalAlerts s
  /\ Vocabulary.totalCount (urgency s) = totalAlerts s
  /\ (totalAlerts s = 0%nat -> averageConfidence s = 0%Q)
  /\ ((forall a, a ∈ collection -> (0 <= al_confidence (sa_alert a) <= 1)%Q) ->
      (0 <= averageConfidence s <= 1)%Q).
Proof.
  unfold AlertServiceMore.getAlertStatistics. cbv zeta.
  set (alerts := AlertServiceMore.findAlertsSince _ userId collection).
  match goal with
  | |- context [fold_left ?f alerts (?init, ?t)] =>
      pose proof (countAlert_fold alerts init t) as Hfold;
      cbv zeta in Hfold;
      destruct (fold_left f alerts (init, t)) as [stats total]
  end.
  cbn [fst snd totalAlerts acknowledged unacknowledged byStressLevel byDay
       alertTypes urgency averageConfidence] in *.
  destruct Hfold as (H1 & H2 & H3 & H4 & H5 & H6 & H7).
  rewrite H1.
  assert (Hempty : forall K `{Countable K}, Vocabulary.totalCount (∅ : gmap K nat) = 0%nat).
  { intros. unfold Vocabulary.totalCount. apply map_fold_empty. }
  rewrite Hempty in H3, H4.
  change (Vocabulary.totalCount
            (<["sms":=0%nat]> (<["in_app":=0%nat]> (<["email":=0%nat]> ∅))))
    with 0%nat in H5.
  change (Vocabulary.totalCount
            (<["low":=0%nat]> (<["medium":=0%nat]> (<["high":=0%nat]>
               (<["critical":=0%nat]> ∅)))))
    with 0%nat in H6.
  split_and!; try lia.
  - intros Hzero. rewrite Hzero. reflexivity.
  - intros Hconf.
    destruct (Nat.ltb_spec 0 (length alerts)) as [Hpos|_]; [|split; discriminate].
    destruct H7 as [Hlo Hhi].
    { intros a Ha. apply Hconf. unfold alerts, AlertServiceMore.findAlertsSince in Ha.
      apply list_elem_of_filter in Ha. apply Ha. }
    assert (Hn : (0 < AIStressDetector.ofNat (length alerts))%Q).
    { unfold AIStressDetector.ofNat. change 0%Q with (inject_Z 0).
      rewrite <- Zlt_Qlt. lia. }
    split.
    + apply Qle_shift_div_l; [exact Hn|lra].
    + apply Qle_shift_div_r; [exact Hn|lra].
Qed.

(** ** The answers of the language model *)

(** X19: the generated answer is never milder than the base level of the
    rule-based classifier for the same NDVI, and its confidence is at least
    0.75, enough for the alert guard. *)
Theorem mock_answer_never_milder (latest : Q) (ndviTrend : JsNum.t)
    (cropType : option string) :
  let answer := LLM.generateMockLLMResponse latest ndviTrend cropType in
  exists level conf,
    ans_stressLevel answer = Some level
    /\ ans_confidence answer = Some conf
    /\ level ∈ AIStressDetector.levels
    /\ AIStressDetector.indexOf AIStressDetector.levels
         (AIStressDetector.rs_stressLevel (AIStressDetector.ndviRule latest))
       <= AIStressDetector.indexOf AIStressDetector.levels level
    /\ (75 # 100 <= conf)%Q.
Proof.
  unfold LLM.generateMockLLMResponse. cbv zeta.
  destruct (ndviRule_thresholds latest)
    as [[A1 ->]|[(A1 & A2 & ->)|[(A1 & A2 & ->)|[A1 ->]]]];
  destruct (Qltb latest (2 # 10)) eqn:E1;
    try (apply Qltb_true in E1); try (apply Qltb_false in E1); try (exfalso; lra);
  try (destruct (Qltb latest (35 # 100)) eqn:E2;
       try (apply Qltb_true in E2); try (apply Qltb_false in E2);
       try (exfalso; lra));
  try (destruct (Qltb latest (5 # 10)) eqn:E3;
       try (apply Qltb_true in E3); try (apply Qltb_false in E3);
       try (exfalso; lra));
  try (destruct (Qltb latest (65 # 100)) eqn:E4;
       try (apply Qltb_true in E4); try (apply Qltb_false in E4);
       try (exfalso; lra));
  destruct (String.eqb (LLM.trendLabel ndviTrend) "declining");
  cbn [ans_stressLevel ans_confidence];
  (eexists; eexists; split; [reflexivity|]; split; [reflexivity|];
   split; [unfold AIStressDetector.levels; rewrite !elem_of_cons; auto 10|];
   split; vm_compute; discriminate).
Qed.

Section TextAnswers.
Import LLM Vocabulary.

Lemma parseTextResponse_level (text : string) :
  exists level,
    ans_stressLevel (parseTextResponse text) = Some level
    /\ ans_confidence (parseTextResponse text) = Some (7 # 10)
    /\ level ∈ ["severe"; "high"; "low"; "healthy"; "moderate"]
    /\ (level = "moderate" <-> mentionsAny levelWords text = false)
    /\ (mentionsAny ["severe"; "critical"] text = true -> level = "severe").
Proof.
  unfold parseTextResponse, mentionsAny, levelWords. cbv zeta. cbn [existsb].
  set (t := toLowerCase text).
  destruct (includes "severe" t); destruct (includes "critical" t);
  destruct (includes "high" t); destruct (includes "serious" t);
  destruct (includes "low" t); destruct (includes "mild" t);
  destruct (includes "healthy" t); destruct (includes "good" t);
  cbn [orb ans_stressLevel ans_confidence];
  (eexists; split; [reflexivity|]; split; [reflexivity|];
   split; [rewrite !elem_of_cons; auto 10|];
   split; [split; intros H; (discriminate H || reflexivity)|];
   intros H; (discriminate H || reflexivity)).
Qed.

End TextAnswers.

(** X20: a free-text answer of the model becomes an analysis with
    confidence 0.7 and one of five levels; it is [moderate] exactly when
    none of the eight words looked for occurs, and [severe] whenever
    "severe" or "critical" occurs, in any letter case and whatever else the
    text says. *)
Theorem text_answer_classification (text : string) (ndviData : list NDVISample)
    (cropType : option string) :
  text <> "" ->
  exists a,
    LLM.analyzeWithHuaweiLLM (TextContent text) ndviData cropType = Some a
    /\ llm_confidence a = 7 # 10
    /\ llm_stressLevel a ∈ AIStressDetector.levels
    /\ (llm_stressLevel a = "moderate"
        <-> Vocabulary.mentionsAny Vocabulary.levelWords text = false)
    /\ (Vocabulary.mentionsAny ["severe"; "critical"] text = true ->
        llm_stressLevel a = "severe").
Proof.
  intros Htext. unfold LLM.analyzeWithHuaweiLLM. cbv zeta.
  destruct (String.eqb_spec text "") as [H|_]; [contradiction|].
  destruct (parseTextResponse_level text) as (level & Hl & Hc & Hin & Hmod & Hsev).
  eexists. split; [reflexivity|]. cbn [llm_confidence llm_stressLevel].
  rewrite Hl, Hc. cbn [LLM.stringOr LLM.numberOr].
  assert (Hne : String.eqb level "" = false).
  { rewrite !elem_of_cons in Hin.
    destruct Hin as [->|[->|[->|[->|[->|H]]]]]; try reflexivity.
    by apply elem_of_nil in H. }
  rewrite Hne. split; [reflexivity|]. split; [|split; assumption].
  unfold AIStressDetector.levels. rewrite !elem_of_cons in Hin |- *.
  destruct Hin as [H|[H|[H|[H|[H|H]]]]]; auto 10; by apply elem_of_nil in H.
Qed.

Lemma text_answer_classification_witness :
  exists a,
    LLM.analyzeWithHuaweiLLM (TextContent MoreExamples.critical_text)
      Examples.healthy_scenario None = Some a
    /\ llm_stressLevel a = "severe".
Proof.
  destruct (text_answer_classification MoreExamples.critical_text
              Examples.healthy_scenario None)
    as (a & Ha & _ & _ & _ & Hsev).
  - vm_compute. discriminate.
  - exists a. split; [exact Ha|]. apply Hsev. vm_compute. reflexivity.
Defined.

(** ** Probabilities of a model *)

Section Interpretation.
Import LLM.

Lemma maxOf_elem (arr : list Q) (m : Q) : maxOf arr = Some m -> m ∈ arr.
Proof.
  revert m. induction arr as [|x rest IH]; intros m; cbn [maxOf]; [discriminate|].
  destruct (maxOf rest) as [m'|].
  - intros H. inversion H. destruct (Qle_bool m' x).
    + apply list_elem_of_here.
    + apply list_elem_of_further. apply IH. reflexivity.
  - intros H. inversion H. apply list_elem_of_here.
Qed.

Lemma maxOf_upper (arr : list Q) (m : Q) :
  maxOf arr = Some m -> forall x, x ∈ arr -> (x <= m)%Q.
Proof.
  revert m. induction arr as [|y rest IH]; intros m; cbn [maxOf]; [discriminate|].
  destruct (maxOf rest) as [m'|] eqn:Hrest.
  - intros H x Hx. inversion H. clear H.
    specialize (IH m' eq_refl).
    apply elem_of_cons in Hx.
    destruct (Qle_bool m' y) eqn:E.
    + apply Qle_bool_iff in E. destruct Hx as [->|Hx]; [apply Qle_refl|].
      eapply Qle_trans; [apply IH; exact Hx|exact E].
    + assert (Hlt : (y < m')%Q).
      { apply Qnot_le_lt. intros Hle. apply Qle_bool_iff in Hle. congruence. }
      destruct Hx as [->|Hx]; [apply Qlt_le_weak; exact Hlt|apply IH; exact Hx].
  - intros H x Hx. inversion H. subst m.
    destruct rest as [|z rest']; [|cbn [maxOf] in Hrest; destruct (maxOf rest'); discriminate].
    apply list_elem_of_singleton in Hx. subst x. apply Qle_refl.
Qed.

Lemma maxOf_nonempty (arr : list Q) : arr <> [] -> exists m, maxOf arr = Some m.
Proof.
  destruct arr as [|x rest]; [contradiction|]. intros _. cbn [maxOf].
  destruct (maxOf rest); eexists; reflexivity.
Qed.

Lemma indexOfNumber_elem (arr : list Q) (m : Q) :
  m ∈ arr ->
  exists i c, indexOfNumber m arr = Some i /\ arr !! i = Some c /\ (c == m)%Q.
Proof.
  induction arr as [|y rest IH]; intros Hm; [by apply elem_of_nil in Hm|].
  cbn [indexOfNumber].
  destruct (Qeq_bool y m) eqn:E.
  - exists 0%nat, y. apply Qeq_bool_iff in E. auto.
  - apply elem_of_cons in Hm. destruct Hm as [->|Hm].
    + rewrite Qeq_bool_refl in E. discriminate E.
    + destruct (IH Hm) as (i & c & Hi & Hc & Heq).
      exists (S i), c. rewrite Hi. auto.
Qed.

(** [indexOf] answers with the first index: no earlier element is the
    value looked for. *)
Lemma indexOfNumber_first (arr : list Q) (m : Q) (i : nat) :
  indexOfNumber m arr = Some i ->
  forall j y, (j < i)%nat -> arr !! j = Some y -> ~ (y == m)%Q.
Proof.
  revert i. induction arr as [|x rest IH]; intros i; cbn [indexOfNumber];
    [discriminate|].
  destruct (Qeq_bool x m) eqn:E.
  - intros H. inversion H. intros j y Hj. lia.
  - destruct (indexOfNumber m rest) as [i'|]; cbn [fmap option_fmap option_map];
      [|discriminate].
    intros H. inversion H. subst i. intros j y Hj Hy.
    destruct j as [|j].
    + cbn in Hy. inversion Hy. subst y. apply Qeq_bool_neq. exact E.
    + cbn in Hy. apply (IH i' eq_refl j y); [lia|exact Hy].
Qed.

End Interpretation.

(** X21: [interpretAIResults] takes the largest probability as the
    confidence and the first index that holds it as the index of the level:
    every earlier probability is smaller.  At or above the threshold it
    reports the level at that index, which is undefined beyond the fifth
    entry; below the threshold it reports the level and confidence of the
    rule-based analysis as [hybrid]; for no probabilities at all it reports
    an undefined level without falling back. *)
Theorem interpretAIResults_top (threshold : Q) (aiOutput : list Q)
    (ndviData : list NDVISample) :
  let r := LLM.interpretAIResults threshold aiOutput ndviData in
  let ruleBased := AIStressDetector.analyzeWithRules ndviData in
  (aiOutput = [] ->
     it_stressLevel r = None /\ it_confidence r = None
     /\ it_aiModel r = "huawei-llm")
  /\ (aiOutput <> [] ->
      exists i c,
        aiOutput !! i = Some c
        /\ (forall x, x ∈ aiOutput -> (x <= c)%Q)
        /\ (forall j y, (j < i)%nat -> aiOutput !! j = Some y -> (y < c)%Q)
        /\ it_aiConfidence r = Some c
        /\ ((threshold <= c)%Q ->
            it_stressLevel r = AIStressDetector.levels !! i
            /\ it_confidence r = Some c /\ it_aiModel r = "huawei-llm")
        /\ ((c < threshold)%Q ->
            it_stressLevel r = Some (stressLevel ruleBased)
            /\ it_confidence r = Some (confidence ruleBased)
            /\ it_aiModel r = "hybrid")).
Proof.
  cbv zeta. split.
  - intros ->. repeat split.
  - intros Hne. unfold LLM.interpretAIResults.
    destruct (maxOf_nonempty aiOutput Hne) as [m Hm]. rewrite Hm.
    destruct (indexOfNumber_elem aiOutput m (maxOf_elem aiOutput m Hm))
      as (i & c & Hi & Hc & Heq).
    cbn [mbind option_bind]. rewrite Hi. cbn [mbind option_bind]. rewrite Hc.
    exists i, c. split; [exact Hc|]. split.
    { intros x Hx. rewrite Heq. apply (maxOf_upper aiOutput m Hm x Hx). }
    split.
    { intros j y Hj Hy.
      assert (Hle : (y <= m)%Q).
      { apply (maxOf_upper aiOutput m Hm). eapply list_elem_of_lookup_2. exact Hy. }
      pose proof (indexOfNumber_first aiOutput m i Hi j y Hj Hy) as Hne'.
      rewrite Heq. apply Qle_lt_or_eq in Hle. destruct Hle as [Hlt|Heq'];
        [exact Hlt|contradiction]. }
    destruct (Qltb c threshold) eqn:E; cbn [it_aiConfidence it_stressLevel it_confidence it_aiModel].
    + apply Qltb_true in E. split; [reflexivity|]. split.
      * intros Hge. exfalso. exact (Qle_not_lt _ _ Hge E).
      * intros _. repeat split.
    + apply Qltb_false in E. split; [reflexivity|]. split.
      * intros _. repeat split.
      * intros Hlt. exfalso. exact (Qle_not_lt _ _ E Hlt).
Qed.

(** ** Videos *)

(** X22: the number of videos returned follows the count alone: [count]
    of the three templates for a count from 0 on, all but the last [-count]
    for a negative one, never more than three; the category only selects the
    query text. *)
Theorem getVideosByCategory_count (category : string) (maxResults : Z) :
  let r := VideoEducationService.getVideosByCategory category maxResults in
  vl_totalResults r = length (vl_videos r)
  /\ (vl_totalResults r <= 3)%nat
  /\ (0 <= maxResults -> vl_totalResults r = Nat.min (Z.to_nat maxResults) 3)
  /\ (maxResults < 0 -> vl_totalResults r = (3 - Z.to_nat (- maxResults))%nat)
  /\ vl_videos r
     = vl_videos (VideoEducationService.getVideosByCategory "general" maxResults)
  /\ vl_videos r `prefix_of` VideoEducationService.videoTemplates.
Proof.
  cbv zeta. unfold VideoEducationService.getVideosByCategory,
    VideoEducationService.generateMockVideos, VideoEducationService.sliceTo.
  cbn [vl_totalResults vl_videos].
  destruct (Z.ltb_spec maxResults 0) as [Hneg|Hpos]; rewrite length_take;
    change (length VideoEducationService.videoTemplates) with 3%nat;
    split_and!; try reflexivity; try lia; try apply prefix_take.
Qed.

(** ** The forecast of the satellite route *)

Section RouteForecast.
Import Routes.

Lemma routeForecastLoop_seqZ (mk : Z -> RouteForecastPoint) (days : Z) (fuel : nat) :
  forall (i : Z) (acc : list RouteForecastPoint),
    Z.of_nat fuel = days - i + 1 ->
    routeForecastLoop fuel mk days i acc = acc ++ map mk (seqZ i (Z.of_nat fuel)).
Proof.
  induction fuel as [|fuel IH]; intros i acc Hfuel.
  - simpl. rewrite app_nil_r. reflexivity.
  - cbn [routeForecastLoop].
    destruct (Z.leb_spec i days) as [_|Hgt]; [|lia].
    rewrite IH by lia.
    rewrite (seqZ_cons i (Z.of_nat (S fuel))) by lia.
    replace (Z.pred (Z.of_nat (S fuel))) with (Z.of_nat fuel) by lia.
    rewrite <- app_assoc. reflexivity.
Qed.

Lemma average_of_nonempty (values : list Q) :
  values <> [] ->
  exists avg,
    JsNum.div (fold_left (fun sum d => (sum + d)%Q) values 0%Q)
      (AIStressDetector.ofNat (length values)) = JsNum.Fin avg.
Proof.
  intros Hne. eexists. apply div_finite. intros Hz.
  destruct values as [|x rest]; [contradiction|].
  assert (Hpos : (inject_Z 0 < AIStressDetector.ofNat (length (x :: rest)))%Q).
  { unfold AIStressDetector.ofNat. rewrite <- Zlt_Qlt. simpl length. lia. }
  rewrite Hz in Hpos. exact (Qlt_irrefl _ Hpos).
Qed.

End RouteForecast.

(** X23: the route's forecast has one point per day of a horizon from 0
    on; with a history every predicted value is a number between 0 and 1,
    with an empty history every predicted value is NaN. *)
Theorem generateNDVIForecast_values (today : Z) (random : Z -> Q)
    (historicalData : list Q) (forecastDays : Z) :
  let points := Routes.generateNDVIForecast today random historicalData forecastDays in
  (0 <= forecastDays -> length points = Z.to_nat forecastDays)
  /\ (historicalData <> [] ->
      forall p, p ∈ points ->
        exists v, rf_predictedNDVI p = JsNum.Fin v /\ (0 <= v <= 1)%Q)
  /\ (historicalData = [] ->
      forall p, p ∈ points -> rf_predictedNDVI p = JsNum.NaN).
Proof.
  cbv zeta. unfold Routes.generateNDVIForecast.
  destruct (Z.le_gt_cases 0 forecastDays) as [Hdays|Hneg].
  - rewrite routeForecastLoop_seqZ by lia. rewrite Z2Nat.id by lia. cbn [app].
    split; [intros _; rewrite length_map, length_seqZ; reflexivity|]. split.
    + intros Hne p Hp. apply list_elem_of_fmap in Hp. destruct Hp as (i & -> & _).
      destruct (average_of_nonempty (AIStressDetector.sliceLast 8 historicalData))
        as [avg Havg].
      { intros Hnil. apply (f_equal length) in Hnil.
        rewrite sliceLast_length in Hnil.
        destruct historicalData; [contradiction|simpl in Hnil; lia]. }
      unfold Routes.routeForecastDay. rewrite Havg.
      cbn [rf_predictedNDVI JsNum.add JsNum.clamp].
      eexists. split; [reflexivity|apply clamp_unit].
    + intros -> p Hp. apply list_elem_of_fmap in Hp. destruct Hp as (i & -> & _).
      reflexivity.
  - replace (Z.to_nat forecastDays) with 0%nat by lia. cbn [Routes.routeForecastLoop].
    split; [intros H; lia|].
    split; intros _ p Hp; by apply elem_of_nil in Hp.
Qed.

(** ** The mocked time series *)

Section TimeSeries.
Import EarthEngineService Vocabulary.

Lemma seriesLoop_invariant (random : nat -> Q) (startDay endDay : Z) (fuel : nat) :
  forall (d : Z) (timeSeries : list SeriesPoint),
    d = startDay + 8 * Z.of_nat (length timeSeries) ->
    Z.of_nat fuel = (if (d <=? endDay)%Z then (endDay - d) / 8 + 1 else 0) ->
    seriesInvariant random startDay endDay timeSeries ->
    let out := seriesLoop fuel random endDay d timeSeries in
    seriesInvariant random startDay endDay out
    /\ length out = (length timeSeries + fuel)%nat.
Proof.
  induction fuel as [|fuel IH]; intros d timeSeries Hd Hfuel Hinv; cbv zeta;
    cbn [seriesLoop].
  - split; [exact Hinv|lia].
  - destruct (Z.leb_spec d endDay) as [Hle|Hgt]; [|lia].
    match goal with
    | |- context [seriesLoop fuel random endDay (d + 8) ?acc] =>
        destruct (IH (d + 8) acc) as [Hinv' Hlen']
    end.
    + rewrite length_app. cbn [length]. lia.
    + destruct (Z.leb_spec (d + 8) endDay) as [Hnext|Hlast].
      * replace (endDay - (d + 8)) with ((endDay - d) + (-1) * 8) by lia.
        rewrite Z.div_add by lia. lia.
      * rewrite Z.div_small in Hfuel by lia. lia.
    + intros k p Hk.
      destruct (Nat.lt_ge_cases k (length timeSeries)) as [Hin|Hout].
      * rewrite lookup_app_l in Hk by exact Hin. apply Hinv. exact Hk.
      * rewrite lookup_app_r in Hk by exact Hout.
        destruct (k - length timeSeries)%nat as [|n] eqn:Hn; [|destruct n; discriminate Hk].
        assert (k = length timeSeries) by lia. subst k.
        cbn in Hk. inversion Hk. cbn [sp_date sp_ndvi sp_cloudCover].
        repeat split; try lia; reflexivity.
    + split; [exact Hinv'|]. rewrite Hlen', length_app. cbn [length]. lia.
Qed.

End TimeSeries.

(** X24: for a random source with values from 0 up to, but not including,
    1 the time series has one point every eighth day from the start day to
    the end day, in ascending order of date, with an NDVI from 0.4 up to
    0.9 and a cloud cover from 0 up to 20; it is empty when the end lies
    before the start. *)
Theorem getTimeSeriesNDVI_points (random : nat -> Q) (startDay endDay : Z) :
  (forall k, (0 <= random k)%Q /\ (random k < 1)%Q) ->
  let series := EarthEngineService.getTimeSeriesNDVI random startDay endDay in
  (startDay <= endDay -> length series = Z.to_nat ((endDay - startDay) / 8 + 1))
  /\ (endDay < startDay -> series = [])
  /\ (forall k p, series !! k = Some p ->
        sp_date p = startDay + 8 * Z.of_nat k
        /\ sp_date p <= endDay
        /\ (4 # 10 <= sp_ndvi p)%Q /\ (sp_ndvi p < 9 # 10)%Q
        /\ (0 <= sp_cloudCover p)%Q /\ (sp_cloudCover p < 20)%Q).
Proof.
  intros Hrandom. cbv zeta. unfold EarthEngineService.getTimeSeriesNDVI.
  assert (Hfuel : Z.of_nat (Z.to_nat ((endDay - startDay) / 8 + 1))
                  = (if (startDay <=? endDay)%Z
                     then (endDay - startDay) / 8 + 1 else 0)).
  { destruct (Z.leb_spec startDay endDay) as [Hle|Hgt].
    - pose proof (Z.div_pos (endDay - startDay) 8 ltac:(lia) ltac:(lia)). lia.
    - assert ((endDay - startDay) / 8 < 0) by (apply Z.div_lt_upper_bound; lia). lia. }
  destruct (seriesLoop_invariant random startDay endDay
              (Z.to_nat ((endDay - startDay) / 8 + 1)) startDay [])
    as [Hinv Hlen].
  - simpl. lia.
  - exact Hfuel.
  - intros k p Hk. discriminate Hk.
  - cbn [length] in Hlen. split; [intros _; rewrite Hlen; lia|]. split.
    + intros Hgt. apply nil_length_inv. rewrite Hlen.
      destruct (Z.leb_spec startDay endDay); lia.
    + intros k p Hk. destruct (Hinv k p Hk) as (Hd & He & Hn & Hc).
      destruct (Hrandom (2 * k)%nat) as [Hn0 Hn1].
      destruct (Hrandom (2 * k + 1)%nat) as [Hc0 Hc1].
      split; [exact Hd|]. split; [exact He|].
      rewrite Hn, Hc. repeat split; lra.
Qed.

Lemma getTimeSeriesNDVI_points_witness :
  length (EarthEngineService.getTimeSeriesNDVI (fun _ => 1 # 2) 0 90)
  = Z.to_nat ((90 - 0) / 8 + 1).
Proof.
  apply (getTimeSeriesNDVI_points (fun _ => 1 # 2) 0 90).
  - intros k. split; [discriminate|reflexivity].
  - lia.
Defined.

(** ** Three tables *)

(** X25: the farm route and the forecast assign the same level to every
    NDVI, the route writing [none] where the forecast writes [healthy]; the
    rule-based table differs from them exactly on the values from 0.4 up to
    0.5, which they call [low]. *)
Theorem threshold_tables (v : Q) :
  let route := Routes.stressLevelOfLatest v in
  let fc := AIStressDetector.forecastStressLevel (JsNum.Fin v) in
  let rule := AIStressDetector.rs_stressLevel (AIStressDetector.ndviRule v) in
  (route = "none" <-> fc = "healthy")
  /\ (route <> "none" -> route = fc)
  /\ (rule = fc <-> ~ ((4 # 10 <= v)%Q /\ (v < 5 # 10)%Q))
  /\ (rule <> fc -> rule = "healthy" /\ fc = "low").
Proof.
  cbv zeta.
  unfold Routes.stressLevelOfLatest, AIStressDetector.forecastStressLevel,
    AIStressDetector.ndviRule.
  rewrite !ltb_Fin. cbv zeta. cbn [AIStressDetector.rs_stressLevel].
  destruct (Qltb v (2 # 10)) eqn:E2; [apply Qltb_true in E2|apply Qltb_false in E2];
  [|destruct (Qltb v (3 # 10)) eqn:E3; [apply Qltb_true in E3|apply Qltb_false in E3];
    [|destruct (Qltb v (4 # 10)) eqn:E4; [apply Qltb_true in E4|apply Qltb_false in E4];
      [|destruct (Qltb v (5 # 10)) eqn:E5;
        [apply Qltb_true in E5|apply Qltb_false in E5]]]];
  cbn [AIStressDetector.rs_stressLevel];
  split_and!; try (split; intros H); try intros H; try discriminate; try reflexivity;
    try congruence; try (intros [H1 H2]; lra); try (exfalso; apply H; split; lra);
    try (split; reflexivity).
Qed.

(** ** Saving an alert *)

Section SavingAlerts.
Import AlertService.

Lemma urgency_in_schema (level : string) :
  getUrgencyLevel level ∈ ["low"; "medium"; "high"; "critical"]
  <-> level = "high" \/ level = "low".
Proof.
  unfold getUrgencyLevel.
  destruct (String.eqb_spec level "severe") as [->|Hs].
  { rewrite !elem_of_cons. split.
    - intros [H|[H|[H|[H|H]]]]; try discriminate H. by apply elem_of_nil in H.
    - intros [H|H]; discriminate H. }
  destruct (String.eqb_spec level "high") as [->|Hh].
  { rewrite !elem_of_cons. split; auto. }
  destruct (String.eqb_spec level "moderate") as [->|Hm].
  { rewrite !elem_of_cons. split.
    - intros [H|[H|[H|[H|H]]]]; try discriminate H. by apply elem_of_nil in H.
    - intros [H|H]; discriminate H. }
  destruct (String.eqb_spec level "low") as [->|Hl].
  { rewrite !elem_of_cons. split; auto. }
  rewrite !elem_of_cons. split.
  - intros [H|[H|[H|[H|H]]]]; try discriminate H. by apply elem_of_nil in H.
  - intros [H|H]; contradiction.
Qed.

End SavingAlerts.

(** X26: handed the farm and its owner, [storeAlertRecord] saves one record
    exactly when the level is [high] or [low] and the confidence lies
    between 0 and 1: the urgency computed for any other level, [urgent] or
    [normal], is not among the values the Alert schema accepts, and the
    rejected save leaves the collection as it was. *)
Theorem storeAlertRecord_saves (env : Env) (st : State) (farmId : Key)
    (analysis : Analysis) (alertResult : SendResult) (fm : Farm) (farmer : User) :
  let out :=
    AlertService.storeAlertRecord env st farmId analysis alertResult
      (Some fm) (Some farmer) in
  let accepted :=
    (stressLevel analysis = "high" \/ stressLevel analysis = "low")
    /\ (0 <= confidence analysis)%Q /\ (confidence analysis <= 1)%Q in
  (accepted ->
     exists alert, out.1 = Some alert
                   /\ db_alerts out.2 = db_alerts st ++ [alert]
                   /\ al_farmId alert = farmId
                   /\ al_userId alert = user_id farmer
                   /\ al_stressLevel alert = stressLevel analysis
                   /\ al_acknowledged alert = false)
  /\ (~ accepted -> out = (None, st)).
Proof.
  cbv zeta. unfold AlertService.storeAlertRecord, AlertService.alertValid.
  cbn [al_stressLevel al_confidence al_urgency al_alertType al_status].
  assert (Htype : bool_decide ((if sr_success alertResult then "sms" else "in_app")
                               ∈ ["sms"; "in_app"; "email"]) = true).
  { apply bool_decide_eq_true. destruct (sr_success alertResult);
      rewrite !elem_of_cons; auto. }
  assert (Hstatus : bool_decide ((if sr_success alertResult then "sent" else "failed")
                                 ∈ ["pending"; "sent"; "delivered"; "failed"]) = true).
  { apply bool_decide_eq_true. destruct (sr_success alertResult);
      rewrite !elem_of_cons; auto 10. }
  rewrite Htype, Hstatus, !andb_true_r.
  pose proof (urgency_in_schema (stressLevel analysis)) as Hurgency.
  split.
  - intros (Hlevel & Hlo & Hhi).
    assert (Hvalid : (bool_decide (stressLevel analysis ∈ AIStressDetector.levels)
                      && Qle_bool 0 (confidence analysis)
                      && Qle_bool (confidence analysis) 1
                      && bool_decide (AlertService.getUrgencyLevel (stressLevel analysis)
                                      ∈ ["low"; "medium"; "high"; "critical"]))%bool
                     = true).
    { rewrite !andb_true_iff. split_and!.
      - apply bool_decide_eq_true. unfold AIStressDetector.levels.
        rewrite !elem_of_cons. destruct Hlevel as [->| ->]; auto 10.
      - apply Qle_bool_iff. exact Hlo.
      - apply Qle_bool_iff. exact Hhi.
      - apply bool_decide_eq_true. apply Hurgency. exact Hlevel. }
    rewrite Hvalid. eexists. cbn [fst snd db_alerts].
    split; [reflexivity|]. repeat split.
  - intros Hnot.
    destruct (bool_decide (stressLevel analysis ∈ AIStressDetector.levels)
              && Qle_bool 0 (confidence analysis)
              && Qle_bool (confidence analysis) 1
              && bool_decide (AlertService.getUrgencyLevel (stressLevel analysis)
                              ∈ ["low"; "medium"; "high"; "critical"]))%bool
      eqn:Hvalid; [|reflexivity].
    exfalso. apply Hnot.
    rewrite !andb_true_iff in Hvalid. destruct Hvalid as (((_ & Hlo) & Hhi) & Hu).
    apply bool_decide_eq_true in Hu. apply Hurgency in Hu.
    apply Qle_bool_iff in Hlo. apply Qle_bool_iff in Hhi. auto.
Qed.

(** X27: when the endpoint answers in no known format, the generated
    answer stands in, and the guard lets it pass exactly when the NDVI read
    is below 0.5 and no alert under the farm id is younger than 24 hours;
    the trend plays no part. *)
Theorem generated_answer_alert_guard (ndviData : list NDVISample)
    (cropType : option string) (cache : gmap Key CacheEntry) (now : Z)
    (farmId : Key) :
  exists a,
    LLM.analyzeWithHuaweiLLM UnexpectedFormat ndviData cropType = Some a
    /\ (AlertService.shouldSendAlert cache now farmId
          (AIStressDetector.detectCropStress (Some (LLM.toAnalysis a)) ndviData)
        = true
        <-> (AIStressDetector.latestNDVI ndviData < 5 # 10)%Q
            /\ (forall la, cache !! farmId = Some la ->
                  AlertService.alertCooldown <= now - timestamp la)).
Proof.
  unfold LLM.analyzeWithHuaweiLLM. cbv zeta. eexists. split; [reflexivity|].
  cbn [AIStressDetector.detectCropStress]. rewrite shouldSendAlert_true_iff.
  unfold LLM.toAnalysis. cbn [stressLevel confidence llm_stressLevel llm_confidence].
  set (latest := AIStressDetector.latestNDVI ndviData).
  unfold LLM.generateMockLLMResponse. cbv zeta.
  destruct (Qltb latest (2 # 10)) eqn:E1;
    [apply Qltb_true in E1|apply Qltb_false in E1;
     destruct (Qltb latest (35 # 100)) eqn:E2;
     [apply Qltb_true in E2|apply Qltb_false in E2;
      destruct (Qltb latest (5 # 10)) eqn:E3;
      [apply Qltb_true in E3|apply Qltb_false in E3;
       destruct (Qltb latest (65 # 100)) eqn:E4;
       [apply Qltb_true in E4|apply Qltb_false in E4]]]];
  destruct (String.eqb (LLM.trendLabel (AIStressDetector.calculateNDVITrend ndviData))
              "declining");
  cbn [ans_stressLevel ans_confidence LLM.stringOr LLM.numberOr String.eqb Qeq_bool];
  (split;
   [intros (Hh & Hl & Hc & Hcache); split; [try lra; try congruence|exact Hcache]
   |intros (Hlt & Hcache); split_and!;
      [try discriminate; exfalso; lra|try discriminate; exfalso; lra
      |try (vm_compute; discriminate); exfalso; lra|exact Hcache]]).
Qed.

(** X28: with fewer than two samples the trend is 0 and nothing is
    escalated; with no sample at all the NDVI read is 0, so the level is
    [severe] with confidence 0.9, and the average is NaN. *)
Theorem few_samples_no_escalation (ndviData : list NDVISample) :
  (length ndviData < 2)%nat ->
  let r := AIStressDetector.analyzeWithRules ndviData in
  AIStressDetector.calculateNDVITrend ndviData = JsNum.Fin 0
  /\ stressLevel r = AIStressDetector.baseStressLevel ndviData
  /\ (ndviData = [] ->
      stressLevel r = "severe" /\ confidence r = 9 # 10
      /\ (average <$> ndviAnalysis r) = Some JsNum.NaN).
Proof.
  intros Hlen. cbv zeta.
  assert (Htrend : AIStressDetector.calculateNDVITrend ndviData = JsNum.Fin 0).
  { unfold AIStressDetector.calculateNDVITrend.
    destruct (Nat.ltb_spec (length ndviData) 2); [reflexivity|lia]. }
  split; [exact Htrend|]. split.
  - unfold AIStressDetector.analyzeWithRules, AIStressDetector.trendAdjust.
    rewrite Htrend. reflexivity.
  - intros ->. repeat split.
Qed.

Lemma few_samples_no_escalation_witness :
  AIStressDetector.calculateNDVITrend [Examples.sample 1 (10 # 100)] = JsNum.Fin 0.
Proof.
  apply (few_samples_no_escalation [Examples.sample 1 (10 # 100)]). simpl. lia.
Defined.
